(** * Video providers of ai_content: AIMLAPI and Pollinations

    A shallow embedding of
      - src/ai_content/providers/aimlapi/video.py
      - src/ai_content/providers/pollinations/video.py
    and the properties of their [generate] methods.

    Python values that reach the code as parsed JSON are modelled by
    [pyval]; dictionaries keep their insertion order (association lists
    with unique keys).  Calls that leave the process (the AIMLAPI client,
    httpx, the clock, the file system) are answered by an explicit
    environment, and every such call may raise.  Exceptions are values:
    [try ... except Exception] catches those derived from [Exception] and
    lets the others (asyncio.CancelledError, KeyboardInterrupt) through. *)

From Stdlib Require Import ZArith Ascii String List Lia.
From stdpp Require Import base option list strings gmap pretty.

Open Scope Z_scope.
Open Scope string_scope.
Open Scope list_scope.

(** ** Python values *)

Module Py.

(** JSON-shaped Python values.  JSON numbers are modelled by [PInt]: the
    code embedded here branches only on truthiness and on
    [isinstance(_, list | str | dict)], which a float shares with an int. *)
#[warnings="-register-all"]
Inductive pyval : Type :=
  | PNone
  | PBool (b : bool)
  | PInt (n : Z)
  | PStr (s : string)
  | PList (l : list pyval)
  | PDict (d : list (string * pyval)).

Definition dict : Type := list (string * pyval).

Definition bytes : Type := list Byte.byte.

(** [bool(v)] *)
Definition truthy (v : pyval) : bool :=
  match v with
  | PNone => false
  | PBool b => b
  | PInt n => negb (Z.eqb n 0)
  | PStr s => negb (String.eqb s "")
  | PList l => match l with [] => false | _ => true end
  | PDict d => match d with [] => false | _ => true end
  end.

(** [a or b]: the first operand when it is truthy, the second otherwise. *)
Definition py_or (a b : pyval) : pyval := if truthy a then a else b.

(** [type(v).__name__] *)
Definition type_name (v : pyval) : string :=
  match v with
  | PNone => "NoneType"
  | PBool _ => "bool"
  | PInt _ => "int"
  | PStr _ => "str"
  | PList _ => "list"
  | PDict _ => "dict"
  end.

Definition isinstance_list (v : pyval) : bool :=
  match v with PList _ => true | _ => false end.
Definition isinstance_str (v : pyval) : bool :=
  match v with PStr _ => true | _ => false end.
Definition isinstance_dict (v : pyval) : bool :=
  match v with PDict _ => true | _ => false end.

(** [d.get(k)] on the association list: [None] when the key is missing. *)
Fixpoint lookup_key (k : string) (d : dict) : option pyval :=
  match d with
  | [] => None
  | (k', v) :: d' => if String.eqb k k' then Some v else lookup_key k d'
  end.

(** [k in d] *)
Definition contains (k : string) (d : dict) : bool :=
  match lookup_key k d with Some _ => true | None => false end.

(** [d.get(k)] *)
Definition dict_get (d : dict) (k : string) : pyval :=
  match lookup_key k d with Some v => v | None => PNone end.

(** [d[k] = v]: replaces the value in place, or appends a new key. *)
Fixpoint dict_set (k : string) (v : pyval) (d : dict) : dict :=
  match d with
  | [] => [(k, v)]
  | (k', v') :: d' =>
      if String.eqb k k' then (k, v) :: d' else (k', v') :: dict_set k v d'
  end.

(** Exceptions.  [exc_is_Exception] says whether the class derives from
    [Exception] (and so is caught by [except Exception]); [exc_str] is
    [str(e)]. *)
Record exn : Type := Exn {
  exc_class : string;
  exc_is_Exception : bool;
  exc_str : string
}.

(** The result of evaluating a Python expression or call. *)
Inductive outcome (A : Type) : Type :=
  | Ret (a : A)
  | Raise (e : exn).
Arguments Ret {A} a.
Arguments Raise {A} e.

Definition AttributeError (v : pyval) (attr : string) : exn :=
  Exn "AttributeError" true
      ("'" +:+ type_name v +:+ "' object has no attribute '" +:+ attr +:+ "'").

Definition KeyError (k : string) : exn :=
  Exn "KeyError" true ("'" +:+ k +:+ "'").

(** [d[k]] *)
Definition getitem (d : dict) (k : string) : outcome pyval :=
  match lookup_key k d with Some v => Ret v | None => Raise (KeyError k) end.

(** [v.get(k)] on an arbitrary value: only dictionaries have [get]. *)
Definition method_get (v : pyval) (k : string) : outcome pyval :=
  match v with
  | PDict d => Ret (dict_get d k)
  | _ => Raise (AttributeError v "get")
  end.

(** [str(n)] for an [int].  CPython refuses to print an integer with more
    than [sys.get_int_max_str_digits()] decimal digits (4300 unless
    configured; 0 switches the check off): it raises [ValueError]. *)
Definition ValueError_int_digits (limit : N) : exn :=
  Exn "ValueError" true
      ("Exceeds the limit (" +:+ pretty limit
       +:+ " digits) for integer string conversion; "
       +:+ "use sys.set_int_max_str_digits() to increase the limit").

Definition decimal_digits (n : Z) : N :=
  N.of_nat (String.length (pretty (Z.abs_N n))).

Definition str_int (limit : N) (n : Z) : outcome string :=
  if negb (N.eqb limit 0) && N.ltb limit (decimal_digits n)
  then Raise (ValueError_int_digits limit)
  else Ret (pretty n).

End Py.
Import Py.

(** ** AIMLAPIVideoProvider._extract_video_url *)

Definition _extract_video_url (status : dict) : outcome pyval :=
  if contains "url" status then getitem status "url"
  else if contains "video_url" status then getitem status "video_url"
  else
    let output := dict_get status "output" in
    if isinstance_list output && truthy output then
      match output with
      | PList (first :: _) =>
          if isinstance_str first then Ret first else method_get first "url"
      | _ => Ret PNone
      end
    else if isinstance_dict output then
      match output with
      | PDict o => Ret (py_or (dict_get o "url") (dict_get o "video_url"))
      | _ => Ret PNone
      end
    else Ret PNone.

(** ** Paths and the file system *)

Module FS.

(** A path is its tuple of parts, as [pathlib.PurePosixPath.parts] gives
    it: the root (["/"], or ["//"] for exactly two leading slashes) comes
    first for an absolute path, [[]] is the current directory.  The file
    system below is keyed by these parts, that is, by the spelling of a
    path: two spellings of one file ([".."], symbolic and hard links, a
    relative and an absolute path) are different keys.  What is stated
    about "the file at [p]" is stated through the spelling [p]. *)
Definition path : Type := list string.

(** The pieces of [s] between slashes (never an empty list). *)
Fixpoint pieces (s : string) : list string :=
  match s with
  | EmptyString => [""]
  | String c s' =>
      if Ascii.eqb c "/" then "" :: pieces s'
      else match pieces s' with
           | [] => [String c ""]
           | h :: t => String c h :: t
           end
  end.

Definition is_absolute (s : string) : bool :=
  match s with
  | String c _ => Ascii.eqb c "/"
  | EmptyString => false
  end.

Definition real_part (s : string) : bool :=
  negb (String.eqb s "") && negb (String.eqb s ".").

Fixpoint leading_slashes (s : string) : nat :=
  match s with
  | String c s' => if Ascii.eqb c "/" then S (leading_slashes s') else O
  | EmptyString => O
  end.

(** The root of [s]: exactly two leading slashes are kept apart, one and
    three or more are ["/"]. *)
Definition root (s : string) : list string :=
  match leading_slashes s with
  | O => []
  | 2%nat => ["//"]
  | _ => ["/"]
  end.

Definition is_root (p : path) : bool :=
  bool_decide (p = ["/"] \/ p = ["//"]).

(** [Path(s)]: empty and ["."] pieces are dropped. *)
Definition Path (s : string) : path :=
  root s ++ List.filter real_part (pieces s).

(** [p / s] *)
Definition div (p : path) (s : string) : path :=
  if is_absolute s then Path s else p ++ Path s.

(** [p.parent]: a root and the current directory are their own parent. *)
Definition parent (p : path) : path :=
  if is_root p then p else removelast p.

(** The non-empty prefixes of [p], shortest first, [p] itself last. *)
Fixpoint prefixes (p : path) : list path :=
  match p with
  | [] => []
  | c :: p' => [c] :: List.map (cons c) (prefixes p')
  end.

Inductive node : Type :=
  | Dir
  | File (content : bytes).

Abbreviation filesystem := (gmap path node).

(** What the map holds at [p]; the roots and the current directory exist
    without being listed. *)
Definition is_dir (fs : filesystem) (p : path) : bool :=
  match fs !! p with
  | Some Dir => true
  | Some (File _) => false
  | None => bool_decide (p = []) || is_root p
  end.

(** A path whose last part is [".."] names a directory, if anything. *)
Definition ends_in_dotdot (p : path) : bool :=
  match last p with
  | Some c => String.eqb c ".."
  | None => false
  end.

(** What can go wrong below the Python level when a file is written:
    [open] fails and nothing changes, or a [write] fails after part of
    the content reached the disk. *)
Inductive write_fault : Type :=
  | OpenFails (e : exn)
  | WriteFails (e : exn) (written : nat).

End FS.
Import FS.

(** ** The world outside the process *)

(** Calls that cross the process boundary, in the order they are made. *)
Inductive request : Type :=
  | SubmitGeneration (endpoint : string) (payload : dict)
  | WaitForCompletion (endpoint : string) (generation_id : pyval)
  | DownloadFile (url : pyval)
  | HttpGet (url : string) (params : dict) (headers : gmap string string).

(** [httpx.Response], as far as the code reads it. *)
Record response : Type := Response {
  status_code : Z;
  content : bytes
}.

(** [datetime.now(timezone.utc)] *)
Record datetime : Type := Datetime {
  year : N; month : N; day : N;
  hour : N; minute : N; second : N; microsecond : N
}.

(** How everything that is not in the two source files behaves during one
    call of [generate]: the AIMLAPI client (ai_content.providers.aimlapi
    .client), httpx, [urllib.parse.quote] (which raises on a string it
    cannot encode), [sys.get_int_max_str_digits()], the clock, the disk,
    the formatting of a dictionary in an f-string, and the text of
    [str(AuthenticationError(provider))] (ai_content.core.exceptions). *)
Record env : Type := Env {
  client_submit_generation : string -> dict -> outcome dict;
  client_wait_for_completion : string -> pyval -> outcome dict;
  client_download_file : pyval -> outcome bytes;
  httpx_get : string -> dict -> gmap string string -> outcome response;
  httpx_raise_for_status : response -> outcome unit;
  urllib_quote : string -> outcome string;
  int_max_str_digits : N;
  utc_now : datetime;
  mkdir_fault : path -> option exn;
  disk_fault : path -> option write_fault;
  format_dict : dict -> string;
  authentication_error_str : string -> string
}.

Record world : Type := World {
  fs : filesystem;
  wire : list request
}.

(** ** Computations: state passing with exceptions *)

Definition M (A : Type) : Type := world -> outcome A * world.

Definition ret {A} (a : A) : M A := fun w => (Ret a, w).

Definition raise {A} (e : exn) : M A := fun w => (Raise e, w).

Definition bind {A B} (k : A -> M B) (m : M A) : M B :=
  fun w =>
    match m w with
    | (Ret a, w') => k a w'
    | (Raise e, w') => (Raise e, w')
    end.

#[global] Instance M_ret : MRet M := @ret.
#[global] Instance M_bind : MBind M := @bind.

(** An expression that may raise but touches nothing outside. *)
Definition eval {A} (o : outcome A) : M A := fun w => (o, w).

(** [try: body / except Exception as e: handler(e)] *)
Definition try_except_Exception {A} (body : M A) (handler : exn -> M A) : M A :=
  fun w =>
    match body w with
    | (Ret a, w') => (Ret a, w')
    | (Raise e, w') =>
        if exc_is_Exception e then handler e w' else (Raise e, w')
    end.

(** A call to the outside: it is recorded, then answered. *)
Definition call {A} (r : request) (answer : outcome A) : M A :=
  fun w => (answer, World (fs w) (wire w ++ [r])).

(** The [OSError]s of the two file operations.  [str(e)] also names the
    path; its fixed part is kept. *)
Definition FileExistsError (p : path) : exn :=
  Exn "FileExistsError" true "[Errno 17] File exists".
Definition IsADirectoryError (p : path) : exn :=
  Exn "IsADirectoryError" true "[Errno 21] Is a directory".
Definition FileNotFoundError (p : path) : exn :=
  Exn "FileNotFoundError" true "[Errno 2] No such file or directory".
Definition NotADirectoryError (p : path) : exn :=
  Exn "NotADirectoryError" true "[Errno 20] Not a directory".

(** One step of [mkdir(parents=True, exist_ok=True)]: [q] is left alone
    when it is a directory, cannot be made when it is a file, and is
    created otherwise. *)
Definition ensure_dir (E : env) (q : path) : M unit :=
  fun w =>
    if is_dir (fs w) q then (Ret tt, w)
    else match fs w !! q with
         | Some _ => (Raise (FileExistsError q), w)
         | None =>
             match mkdir_fault E q with
             | Some e => (Raise e, w)
             | None => (Ret tt, World (<[q := Dir]> (fs w)) (wire w))
             end
         end.

Fixpoint ensure_dirs (E : env) (qs : list path) : M unit :=
  match qs with
  | [] => ret tt
  | q :: qs' => ensure_dir E q ;; ensure_dirs E qs'
  end.

(** [p.mkdir(parents=True, exist_ok=True)]: the missing ancestors are
    made from the top down, then [p]. *)
Definition mkdir_parents (E : env) (p : path) : M unit :=
  ensure_dirs E (prefixes p).

(** [p.write_bytes(data)]: opens [p] for writing (truncating it), writes
    [data], closes.  A directory cannot be opened for writing, a file
    cannot be made where the parent is missing or is a regular file, and
    [".."] under a directory is a directory. *)
Definition write_bytes (E : env) (p : path) (data : bytes) : M unit :=
  fun w =>
    if is_dir (fs w) p then (Raise (IsADirectoryError p), w)
    else if negb (is_dir (fs w) (parent p)) then
      match fs w !! parent p with
      | Some (File _) => (Raise (NotADirectoryError p), w)
      | _ => (Raise (FileNotFoundError p), w)
      end
    else if ends_in_dotdot p then (Raise (IsADirectoryError p), w)
    else match disk_fault E p with
         | Some (OpenFails e) => (Raise e, w)
         | Some (WriteFails e k) =>
             (Raise e, World (<[p := File (take k data)]> (fs w)) (wire w))
         | None => (Ret tt, World (<[p := File data]> (fs w)) (wire w))
         end.

(** ** Results, settings and keyword arguments *)

(** Modelled from the spec: the [GenerationResult] record of
    ai_content.core.result (its declaration is not among the source
    files).  A field the constructor call does not name is absent
    ([None]; the empty mapping for [metadata]). *)
Record GenerationResult : Type := mkGenerationResult {
  success : bool;
  provider : string;
  content_type : string;
  file_path : option path;
  data : option bytes;
  generation_id : option pyval;
  error : option string;
  metadata : dict
}.

(** Modelled from the spec: [AuthenticationError] of
    ai_content.core.exceptions, an [Exception] raised when the remote
    refuses the credentials; the text of [str(e)] is the environment's. *)
Definition AuthenticationError (E : env) (provider_name : string) : exn :=
  Exn "AuthenticationError" true (authentication_error_str E provider_name).

(** The keyword arguments of [generate]; [None] for one that the caller
    did not supply. *)
Record kwargs : Type := Kwargs {
  kw_aspect_ratio : option string;
  kw_duration_seconds : option Z;
  kw_first_frame_url : option string;
  kw_output_path : option string;
  kw_use_fast_model : option bool
}.

Definition no_kwargs : kwargs := Kwargs None None None None None.

(** Truthiness of a [str | None]. *)
Definition truthy_str (o : option string) : bool :=
  match o with
  | Some s => negb (String.eqb s "")
  | None => false
  end.

(** ** strftime("%Y%m%d_%H%M%S") *)

Definition digit (n : N) : ascii := ascii_of_N (48 + n mod 10)%N.

Definition pad2 (n : N) : string :=
  String (digit (n / 10)) (String (digit n) "").

Definition pad4 (n : N) : string :=
  String (digit (n / 1000)) (String (digit (n / 100)) (pad2 n)).

(** The year is four digits wide for the years 1000 to 9999. *)
Definition strftime_Ymd_HMS (t : datetime) : string :=
  pad4 (year t) +:+ pad2 (month t) +:+ pad2 (day t) +:+ "_"
  +:+ pad2 (hour t) +:+ pad2 (minute t) +:+ pad2 (second t).

Definition valid_datetime (t : datetime) : Prop :=
  (1000 <= year t <= 9999 /\ 1 <= month t <= 12 /\ 1 <= day t <= 31
   /\ hour t < 24 /\ minute t < 60 /\ second t < 60 /\ microsecond t < 1000000)%N.

(** ** AIMLAPIVideoProvider *)

Module AIMLAPI.

Record settings : Type := Settings {
  video_model : string;
  (** [None]: the settings object has no such attribute *)
  video_fast_model : option string
}.

Record provider_state : Type := Provider {
  self_settings : settings;        (* get_settings().aimlapi *)
  output_dir : path                (* get_settings().output_dir *)
}.

Definition name : string := "aimlapi".
Definition max_duration_seconds : Z := 10.

Definition submit_generation (E : env) (endpoint : string) (payload : dict) : M dict :=
  call (SubmitGeneration endpoint payload) (client_submit_generation E endpoint payload).

Definition wait_for_completion (E : env) (endpoint : string) (generation_id : pyval) : M dict :=
  call (WaitForCompletion endpoint generation_id)
       (client_wait_for_completion E endpoint generation_id).

Definition download_file (E : env) (url : pyval) : M bytes :=
  call (DownloadFile url) (client_download_file E url).

(** The model selected before the [try] block. *)
Definition select_model (self : provider_state) (use_fast_model : bool) : string :=
  match video_fast_model (self_settings self) with
  | Some fast => if use_fast_model then fast else video_model (self_settings self)
  | None => video_model (self_settings self)
  end.

(** The payload sent with the submission. *)
Definition build_payload (model prompt aspect_ratio : string) (duration_seconds : Z)
    (first_frame_url : option string) : dict :=
  let payload := [("model", PStr model); ("prompt", PStr prompt);
                  ("aspect_ratio", PStr aspect_ratio)] in
  let payload := dict_set "duration" (PInt (if Z.ltb 5 duration_seconds then 10 else 5)) payload in
  match first_frame_url with
  | Some u => if truthy_str first_frame_url then dict_set "image_url" (PStr u) payload else payload
  | None => payload
  end.

(** [result.get("id") or result.get("generation_id")] *)
Definition pick_generation_id (result : dict) : pyval :=
  py_or (dict_get result "id") (dict_get result "generation_id").

Definition default_file_path (self : provider_state) (now : datetime) : path :=
  div (output_dir self) ("aimlapi_" +:+ strftime_Ymd_HMS now +:+ ".mp4").

Definition resolve_file_path (self : provider_state) (E : env) (output_path : option string) : path :=
  match output_path with
  | Some s => if truthy_str output_path then Path s else default_file_path self (utc_now E)
  | None => default_file_path self (utc_now E)
  end.

Definition generate (self : provider_state) (E : env) (prompt : string) (kw : kwargs)
    : M GenerationResult :=
  let aspect_ratio := default "16:9" (kw_aspect_ratio kw) in
  let duration_seconds := default 5 (kw_duration_seconds kw) in
  let first_frame_url := kw_first_frame_url kw in
  let output_path := kw_output_path kw in
  let use_fast_model := default false (kw_use_fast_model kw) in
  let model := select_model self use_fast_model in
  try_except_Exception
    (let payload := build_payload model prompt aspect_ratio duration_seconds first_frame_url in
     result ← submit_generation E "/v2/generate/video" payload;
     let generation_id := pick_generation_id result in
     if negb (truthy generation_id) then
       mret (mkGenerationResult false name "video" None None None
               (Some ("No generation ID in response: " +:+ format_dict E result)) [])
     else
       status ← wait_for_completion E "/v2/generate/video" generation_id;
       video_url ← eval (_extract_video_url status);
       if negb (truthy video_url) then
         mret (mkGenerationResult false name "video" None None (Some generation_id)
                 (Some "No video URL in response") [])
       else
         video_data ← download_file E video_url;
         let file_path := resolve_file_path self E output_path in
         mkdir_parents E (parent file_path);;
         write_bytes E file_path video_data;;
         mret (mkGenerationResult true name "video" (Some file_path) (Some video_data)
                 (Some generation_id) None
                 [("model", PStr model); ("prompt", PStr prompt);
                  ("aspect_ratio", PStr aspect_ratio)]))
    (fun e =>
       mret (mkGenerationResult false name "video" None None None (Some (exc_str e)) [])).

End AIMLAPI.

(** ** PollinationsVideoProvider *)

Module Pollinations.

Record settings : Type := Settings {
  api_key : option string;
  base_url : string;
  video_model : string
}.

Record provider_state : Type := Provider {
  self_settings : settings;        (* get_settings().pollinations *)
  output_dir : path                (* get_settings().output_dir *)
}.

Definition name : string := "pollinations".
Definition max_duration_seconds : Z := 10.

(** The [headers] property. *)
Definition headers (self : provider_state) : gmap string string :=
  let headers : gmap string string := {[ "Content-Type" := "application/json" ]} in
  match api_key (self_settings self) with
  | Some k =>
      if truthy_str (api_key (self_settings self))
      then <["Authorization" := "Bearer " +:+ k]> headers
      else headers
  | None => headers
  end.

(** The query parameters, given the text of [str(duration_seconds)]. *)
Definition build_params (self : provider_state) (aspect_ratio : string) (duration : string) : dict :=
  let params := [("model", PStr (video_model (self_settings self)));
                 ("aspect_ratio", PStr aspect_ratio);
                 ("duration", PStr duration)] in
  if truthy_str (api_key (self_settings self))
  then dict_set "nologo" (PStr "true") params
  else params.

(** The URL, given the text of [urllib.parse.quote(prompt)]. *)
Definition base_endpoint (self : provider_state) (encoded_prompt : string) : string :=
  base_url (self_settings self) +:+ "/image/" +:+ encoded_prompt.

Definition default_file_path (self : provider_state) (now : datetime) : path :=
  div (output_dir self) ("pollinations_" +:+ strftime_Ymd_HMS now +:+ ".mp4").

Definition resolve_file_path (self : provider_state) (E : env) (output_path : option string) : path :=
  match output_path with
  | Some s => if truthy_str output_path then Path s else default_file_path self (utc_now E)
  | None => default_file_path self (utc_now E)
  end.

(** The body of [async with httpx.AsyncClient(...) as client]. *)
Definition fetch (self : provider_state) (E : env) (url : string) (params : dict) : M bytes :=
  response ← call (HttpGet url params (headers self)) (httpx_get E url params (headers self));
  (if Z.eqb (status_code response) 401
   then raise (AuthenticationError E "pollinations")
   else mret tt);;
  eval (httpx_raise_for_status E response);;
  mret (content response).

(** [quote(prompt)] and [str(duration_seconds)] are evaluated before the
    [try] block: what they raise leaves [generate]. *)
Definition generate (self : provider_state) (E : env) (prompt : string) (kw : kwargs)
    : M GenerationResult :=
  let aspect_ratio := default "16:9" (kw_aspect_ratio kw) in
  let duration_seconds := default 5 (kw_duration_seconds kw) in
  let output_path := kw_output_path kw in
  let model := video_model (self_settings self) in
  encoded_prompt ← eval (urllib_quote E prompt);
  duration ← eval (str_int (int_max_str_digits E) duration_seconds);
  let params := build_params self aspect_ratio duration in
  try_except_Exception
    (video_data ← fetch self E (base_endpoint self encoded_prompt) params;
     let file_path := resolve_file_path self E output_path in
     mkdir_parents E (parent file_path);;
     write_bytes E file_path video_data;;
     mret (mkGenerationResult true name "video" (Some file_path) (Some video_data)
             None None
             [("model", PStr model); ("prompt", PStr prompt);
              ("aspect_ratio", PStr aspect_ratio); ("duration", PInt duration_seconds)]))
    (fun e =>
       mret (mkGenerationResult false name "video" None None None (Some (exc_str e)) [])).

End Pollinations.

(** ** The video providers behind one interface

    Both classes are registered with [ProviderRegistry.register_video]
    and are called through their [generate] method. *)

Inductive video_provider : Type :=
  | AIMLAPIVideoProvider (self : AIMLAPI.provider_state)
  | PollinationsVideoProvider (self : Pollinations.provider_state).

Definition generate (p : video_provider) : env -> string -> kwargs -> M GenerationResult :=
  match p with
  | AIMLAPIVideoProvider self => AIMLAPI.generate self
  | PollinationsVideoProvider self => Pollinations.generate self
  end.

Definition max_duration_seconds (p : video_provider) : Z :=
  match p with
  | AIMLAPIVideoProvider _ => AIMLAPI.max_duration_seconds
  | PollinationsVideoProvider _ => Pollinations.max_duration_seconds
  end.

Definition provider_name (p : video_provider) : string :=
  match p with
  | AIMLAPIVideoProvider _ => AIMLAPI.name
  | PollinationsVideoProvider _ => Pollinations.name
  end.

(** [get_settings().output_dir] *)
Definition output_dir (p : video_provider) : path :=
  match p with
  | AIMLAPIVideoProvider self => AIMLAPI.output_dir self
  | PollinationsVideoProvider self => Pollinations.output_dir self
  end.

(** ** Scenarios

    Concrete environments on which the definitions above are run. *)

Module Scenario.

Definition twelve_bytes : bytes :=
  [Byte.x00; Byte.x00; Byte.x00; Byte.x18; Byte.x66; Byte.x74;
   Byte.x79; Byte.x70; Byte.x6d; Byte.x70; Byte.x34; Byte.x32].

Definition HTTPStatusError (r : response) : exn :=
  Exn "HTTPStatusError" true ("Server error '" +:+ pretty (status_code r) +:+ "'").

Definition raise_for_status (r : response) : outcome unit :=
  if Z.leb 200 (status_code r) && Z.ltb (status_code r) 300 then Ret tt
  else Raise (HTTPStatusError r).

Definition noon : datetime := Datetime 2026 11 3 12 0 0 0.
Definition noon_and_a_half : datetime := Datetime 2026 11 3 12 0 0 500000.

(** Every remote call succeeds: the submission answers
    [{"id": "abc123"}], the status is
    [{"status": "succeeded", "url": "http://x/file.mp4"}], the download
    is twelve bytes long. *)
Definition happy : env := {|
  client_submit_generation := fun _ _ => Ret [("id", PStr "abc123")];
  client_wait_for_completion := fun _ _ =>
    Ret [("status", PStr "succeeded"); ("url", PStr "http://x/file.mp4")];
  client_download_file := fun _ => Ret twelve_bytes;
  httpx_get := fun _ _ _ => Ret (Response 200 twelve_bytes);
  httpx_raise_for_status := raise_for_status;
  urllib_quote := fun s => Ret s;
  int_max_str_digits := 4300;
  utc_now := noon;
  mkdir_fault := fun _ => None;
  disk_fault := fun _ => None;
  format_dict := fun _ => "{...}";
  authentication_error_str := fun p => "Authentication failed for " +:+ p
|}.

Definition with_submit (E : env) (answer : outcome dict) : env := {|
  client_submit_generation := fun _ _ => answer;
  client_wait_for_completion := client_wait_for_completion E;
  client_download_file := client_download_file E;
  httpx_get := httpx_get E;
  httpx_raise_for_status := httpx_raise_for_status E;
  urllib_quote := urllib_quote E;
  int_max_str_digits := int_max_str_digits E;
  utc_now := utc_now E;
  mkdir_fault := mkdir_fault E;
  disk_fault := disk_fault E;
  format_dict := format_dict E;
  authentication_error_str := authentication_error_str E
|}.

Definition with_status (E : env) (answer : outcome dict) : env := {|
  client_submit_generation := client_submit_generation E;
  client_wait_for_completion := fun _ _ => answer;
  client_download_file := client_download_file E;
  httpx_get := httpx_get E;
  httpx_raise_for_status := httpx_raise_for_status E;
  urllib_quote := urllib_quote E;
  int_max_str_digits := int_max_str_digits E;
  utc_now := utc_now E;
  mkdir_fault := mkdir_fault E;
  disk_fault := disk_fault E;
  format_dict := format_dict E;
  authentication_error_str := authentication_error_str E
|}.

Definition with_download (E : env) (answer : outcome bytes) : env := {|
  client_submit_generation := client_submit_generation E;
  client_wait_for_completion := client_wait_for_completion E;
  client_download_file := fun _ => answer;
  httpx_get := httpx_get E;
  httpx_raise_for_status := httpx_raise_for_status E;
  urllib_quote := urllib_quote E;
  int_max_str_digits := int_max_str_digits E;
  utc_now := utc_now E;
  mkdir_fault := mkdir_fault E;
  disk_fault := disk_fault E;
  format_dict := format_dict E;
  authentication_error_str := authentication_error_str E
|}.

Definition with_get (E : env) (answer : outcome response) : env := {|
  client_submit_generation := client_submit_generation E;
  client_wait_for_completion := client_wait_for_completion E;
  client_download_file := client_download_file E;
  httpx_get := fun _ _ _ => answer;
  httpx_raise_for_status := httpx_raise_for_status E;
  urllib_quote := urllib_quote E;
  int_max_str_digits := int_max_str_digits E;
  utc_now := utc_now E;
  mkdir_fault := mkdir_fault E;
  disk_fault := disk_fault E;
  format_dict := format_dict E;
  authentication_error_str := authentication_error_str E
|}.

Definition at_time (E : env) (t : datetime) : env := {|
  client_submit_generation := client_submit_generation E;
  client_wait_for_completion := client_wait_for_completion E;
  client_download_file := client_download_file E;
  httpx_get := httpx_get E;
  httpx_raise_for_status := httpx_raise_for_status E;
  urllib_quote := urllib_quote E;
  int_max_str_digits := int_max_str_digits E;
  utc_now := t;
  mkdir_fault := mkdir_fault E;
  disk_fault := disk_fault E;
  format_dict := format_dict E;
  authentication_error_str := authentication_error_str E
|}.

(** A prompt that [urllib.parse.quote] cannot encode (one that holds a
    lone surrogate). *)
Definition with_quote (E : env) (answer : outcome string) : env := {|
  client_submit_generation := client_submit_generation E;
  client_wait_for_completion := client_wait_for_completion E;
  client_download_file := client_download_file E;
  httpx_get := httpx_get E;
  httpx_raise_for_status := httpx_raise_for_status E;
  urllib_quote := fun _ => answer;
  int_max_str_digits := int_max_str_digits E;
  utc_now := utc_now E;
  mkdir_fault := mkdir_fault E;
  disk_fault := disk_fault E;
  format_dict := format_dict E;
  authentication_error_str := authentication_error_str E
|}.

Definition UnicodeEncodeError : exn :=
  Exn "UnicodeEncodeError" true
      "'utf-8' codec can't encode character '\ud800' in position 0: surrogates not allowed".

(** [httpx.ReadTimeout] as httpx raises it when the server stays silent:
    its message is empty. *)
Definition ReadTimeout : exn := Exn "ReadTimeout" true "".

(** [asyncio.CancelledError] derives from [BaseException] only. *)
Definition CancelledError : exn := Exn "CancelledError" false "".

Definition aimlapi : AIMLAPI.provider_state :=
  AIMLAPI.Provider (AIMLAPI.Settings "alibaba/wan-2.1-t2v-plus" (Some "alibaba/wan-2.1-t2v-turbo"))
                   ["exports"].

Definition pollinations : Pollinations.provider_state :=
  Pollinations.Provider (Pollinations.Settings (Some "sk-test") "https://gen.pollinations.ai" "wan")
                        ["exports"].

Definition pollinations_anonymous : Pollinations.provider_state :=
  Pollinations.Provider (Pollinations.Settings None "https://gen.pollinations.ai" "wan")
                        ["exports"].

Definition empty_world : world := World ∅ [].

End Scenario.

(** ** Vocabulary of the properties *)

(** The exceptions the environment can raise: what the AIMLAPI client,
    httpx and the operating system may answer with. *)
Inductive raises (E : env) : exn -> Prop :=
  | raises_submit endpoint payload e :
      client_submit_generation E endpoint payload = Raise e -> raises E e
  | raises_wait endpoint generation_id e :
      client_wait_for_completion E endpoint generation_id = Raise e -> raises E e
  | raises_download url e :
      client_download_file E url = Raise e -> raises E e
  | raises_get url params hdrs e :
      httpx_get E url params hdrs = Raise e -> raises E e
  | raises_status r e :
      httpx_raise_for_status E r = Raise e -> raises E e
  | raises_mkdir q e :
      mkdir_fault E q = Some e -> raises E e
  | raises_open p e :
      disk_fault E p = Some (OpenFails e) -> raises E e
  | raises_write p e k :
      disk_fault E p = Some (WriteFails e k) -> raises E e.

(** A provider-side failure is an exception derived from [Exception]
    (a cancellation is not one). *)
Definition provider_side (E : env) : Prop :=
  forall e, raises E e -> exc_is_Exception e = true.

(** The requests made between two states of the world. *)
Definition requests_since (w w' : world) : list request :=
  drop (length (wire w)) (wire w').

(** The binary content was requested and the download completed with
    [video_data]: for AIMLAPI the client's [download_file] returned it, for
    Pollinations the GET was answered with a response that is neither a
    401 nor refused by [raise_for_status]. *)
Definition downloaded (p : video_provider) (E : env) (new : list request) (video_data : bytes) : Prop :=
  match p with
  | AIMLAPIVideoProvider _ =>
      exists url, In (DownloadFile url) new /\ client_download_file E url = Ret video_data
  | PollinationsVideoProvider _ =>
      exists url params hdrs r,
        In (HttpGet url params hdrs) new
        /\ httpx_get E url params hdrs = Ret r
        /\ status_code r <> 401
        /\ httpx_raise_for_status E r = Ret tt
        /\ content r = video_data
  end.

(** The part of a clock reading that [strftime_Ymd_HMS] prints. *)
Definition to_the_second (t : datetime) : N * N * N * N * N * N :=
  (year t, month t, day t, hour t, minute t, second t).

Definition no_slash (s : string) : bool :=
  forallb (fun c => negb (Ascii.eqb c "/")) (list_ascii_of_string s).

(** The payload and the query parameters of a call, as [generate]
    builds them from its arguments. *)
Definition aimlapi_payload (self : AIMLAPI.provider_state) (prompt : string) (kw : kwargs) : dict :=
  AIMLAPI.build_payload
    (AIMLAPI.select_model self (default false (kw_use_fast_model kw)))
    prompt (default "16:9" (kw_aspect_ratio kw))
    (default 5 (kw_duration_seconds kw)) (kw_first_frame_url kw).

Definition pollinations_params (self : Pollinations.provider_state) (kw : kwargs)
    (duration : string) : dict :=
  Pollinations.build_params self (default "16:9" (kw_aspect_ratio kw)) duration.

(** [str(duration_seconds)] as a call evaluates it. *)
Definition duration_text (E : env) (kw : kwargs) : outcome string :=
  str_int (int_max_str_digits E) (default 5 (kw_duration_seconds kw)).

(** The steps that precede the [try] block return: for Pollinations the
    prompt can be quoted and the duration printed; AIMLAPI has no such
    step. *)
Definition request_built (p : video_provider) (E : env) (prompt : string) (kw : kwargs) : Prop :=
  match p with
  | AIMLAPIVideoProvider _ => True
  | PollinationsVideoProvider _ =>
      (exists q, urllib_quote E prompt = Ret q) /\ (exists d, duration_text E kw = Ret d)
  end.

(** An entry that is still there, and of the kind it was. *)
Definition same_kind (before : node) (after : option node) : Prop :=
  match before with
  | Dir => after = Some Dir
  | File _ => exists content, after = Some (File content)
  end.

(** A step that precedes the [try] block raises [e]: quoting the prompt
    or printing the duration in [PollinationsVideoProvider.generate]. *)
Definition raised_before_try (p : video_provider) (E : env) (prompt : string) (kw : kwargs)
    (e : exn) : Prop :=
  match p with
  | AIMLAPIVideoProvider _ => False
  | PollinationsVideoProvider _ =>
      urllib_quote E prompt = Raise e
      \/ ((exists q, urllib_quote E prompt = Ret q) /\ duration_text E kw = Raise e)
  end.

(** What "clamped to the declared maximum" would send. *)
Definition clamp (maximum duration_seconds : Z) : Z := Z.min duration_seconds maximum.

(** The two statements that persist the download. *)
Definition persist (E : env) (file_path : path) (video_data : bytes) : M unit :=
  mkdir_parents E (parent file_path);; write_bytes E file_path video_data.

(** The [except Exception as e] clause of either provider applied to an
    exception [e] that leaves the [try] block. *)
Definition caught (provider_name : string) (e : exn) : outcome GenerationResult :=
  if exc_is_Exception e
  then Ret (mkGenerationResult false provider_name "video" None None None
              (Some (exc_str e)) [])
  else Raise e.

Definition sent (w : world) (new : list request) : world :=
  World (fs w) (wire w ++ new).

(** The ways a call of [AIMLAPIVideoProvider.generate] ends: at the
    submission, at the missing id, while waiting, in the extraction, at
    the missing URL, at the download, while persisting, or with the file
    written. *)
Inductive aimlapi_ends (self : AIMLAPI.provider_state) (E : env) (prompt : string)
    (kw : kwargs) (w : world) : outcome GenerationResult -> world -> Prop :=
  | ends_submit e :
      let payload := aimlapi_payload self prompt kw in
      client_submit_generation E "/v2/generate/video" payload = Raise e ->
      aimlapi_ends self E prompt kw w (caught "aimlapi" e)
        (sent w [SubmitGeneration "/v2/generate/video" payload])
  | ends_no_id result :
      let payload := aimlapi_payload self prompt kw in
      client_submit_generation E "/v2/generate/video" payload = Ret result ->
      truthy (AIMLAPI.pick_generation_id result) = false ->
      aimlapi_ends self E prompt kw w
        (Ret (mkGenerationResult false "aimlapi" "video" None None None
                (Some ("No generation ID in response: " +:+ format_dict E result)) []))
        (sent w [SubmitGeneration "/v2/generate/video" payload])
  | ends_wait result e :
      let payload := aimlapi_payload self prompt kw in
      let id := AIMLAPI.pick_generation_id result in
      client_submit_generation E "/v2/generate/video" payload = Ret result ->
      truthy id = true ->
      client_wait_for_completion E "/v2/generate/video" id = Raise e ->
      aimlapi_ends self E prompt kw w (caught "aimlapi" e)
        (sent w [SubmitGeneration "/v2/generate/video" payload;
                 WaitForCompletion "/v2/generate/video" id])
  | ends_extract result status e :
      let payload := aimlapi_payload self prompt kw in
      let id := AIMLAPI.pick_generation_id result in
      client_submit_generation E "/v2/generate/video" payload = Ret result ->
      truthy id = true ->
      client_wait_for_completion E "/v2/generate/video" id = Ret status ->
      _extract_video_url status = Raise e ->
      aimlapi_ends self E prompt kw w (caught "aimlapi" e)
        (sent w [SubmitGeneration "/v2/generate/video" payload;
                 WaitForCompletion "/v2/generate/video" id])
  | ends_no_url result status video_url :
      let payload := aimlapi_payload self prompt kw in
      let id := AIMLAPI.pick_generation_id result in
      client_submit_generation E "/v2/generate/video" payload = Ret result ->
      truthy id = true ->
      client_wait_for_completion E "/v2/generate/video" id = Ret status ->
      _extract_video_url status = Ret video_url ->
      truthy video_url = false ->
      aimlapi_ends self E prompt kw w
        (Ret (mkGenerationResult false "aimlapi" "video" None None (Some id)
                (Some "No video URL in response") []))
        (sent w [SubmitGeneration "/v2/generate/video" payload;
                 WaitForCompletion "/v2/generate/video" id])
  | ends_download result status video_url e :
      let payload := aimlapi_payload self prompt kw in
      let id := AIMLAPI.pick_generation_id result in
      client_submit_generation E "/v2/generate/video" payload = Ret result ->
      truthy id = true ->
      client_wait_for_completion E "/v2/generate/video" id = Ret status ->
      _extract_video_url status = Ret video_url ->
      truthy video_url = true ->
      client_download_file E video_url = Raise e ->
      aimlapi_ends self E prompt kw w (caught "aimlapi" e)
        (sent w [SubmitGeneration "/v2/generate/video" payload;
                 WaitForCompletion "/v2/generate/video" id;
                 DownloadFile video_url])
  | ends_persist result status video_url video_data e w' :
      let payload := aimlapi_payload self prompt kw in
      let id := AIMLAPI.pick_generation_id result in
      client_submit_generation E "/v2/generate/video" payload = Ret result ->
      truthy id = true ->
      client_wait_for_completion E "/v2/generate/video" id = Ret status ->
      _extract_video_url status = Ret video_url ->
      truthy video_url = true ->
      client_download_file E video_url = Ret video_data ->
      persist E (AIMLAPI.resolve_file_path self E (kw_output_path kw)) video_data
        (sent w [SubmitGeneration "/v2/generate/video" payload;
                 WaitForCompletion "/v2/generate/video" id;
                 DownloadFile video_url]) = (Raise e, w') ->
      aimlapi_ends self E prompt kw w (caught "aimlapi" e) w'
  | ends_saved result status video_url video_data w' :
      let payload := aimlapi_payload self prompt kw in
      let id := AIMLAPI.pick_generation_id result in
      let file_path := AIMLAPI.resolve_file_path self E (kw_output_path kw) in
      client_submit_generation E "/v2/generate/video" payload = Ret result ->
      truthy id = true ->
      client_wait_for_completion E "/v2/generate/video" id = Ret status ->
      _extract_video_url status = Ret video_url ->
      truthy video_url = true ->
      client_download_file E video_url = Ret video_data ->
      persist E file_path video_data
        (sent w [SubmitGeneration "/v2/generate/video" payload;
                 WaitForCompletion "/v2/generate/video" id;
                 DownloadFile video_url]) = (Ret tt, w') ->
      aimlapi_ends self E prompt kw w
        (Ret (mkGenerationResult true "aimlapi" "video" (Some file_path) (Some video_data)
                (Some id) None
                [("model", PStr (AIMLAPI.select_model self (default false (kw_use_fast_model kw))));
                 ("prompt", PStr prompt);
                 ("aspect_ratio", PStr (default "16:9" (kw_aspect_ratio kw)))]))
        w'.

(** The ways a call of [PollinationsVideoProvider.generate] ends: before
    the [try] block (the exception leaves the call), at the request, at a
    401, at [raise_for_status], while persisting, or with the file
    written. *)
Inductive pollinations_ends (self : Pollinations.provider_state) (E : env) (prompt : string)
    (kw : kwargs) (w : world) : outcome GenerationResult -> world -> Prop :=
  | ends_quote e :
      urllib_quote E prompt = Raise e ->
      pollinations_ends self E prompt kw w (Raise e) w
  | ends_str q e :
      urllib_quote E prompt = Ret q ->
      duration_text E kw = Raise e ->
      pollinations_ends self E prompt kw w (Raise e) w
  | ends_get q d e :
      let url := Pollinations.base_endpoint self q in
      let params := pollinations_params self kw d in
      let hdrs := Pollinations.headers self in
      urllib_quote E prompt = Ret q ->
      duration_text E kw = Ret d ->
      httpx_get E url params hdrs = Raise e ->
      pollinations_ends self E prompt kw w (caught "pollinations" e)
        (sent w [HttpGet url params hdrs])
  | ends_unauthorized q d r :
      let url := Pollinations.base_endpoint self q in
      let params := pollinations_params self kw d in
      let hdrs := Pollinations.headers self in
      urllib_quote E prompt = Ret q ->
      duration_text E kw = Ret d ->
      httpx_get E url params hdrs = Ret r ->
      status_code r = 401 ->
      pollinations_ends self E prompt kw w
        (caught "pollinations" (AuthenticationError E "pollinations"))
        (sent w [HttpGet url params hdrs])
  | ends_status q d r e :
      let url := Pollinations.base_endpoint self q in
      let params := pollinations_params self kw d in
      let hdrs := Pollinations.headers self in
      urllib_quote E prompt = Ret q ->
      duration_text E kw = Ret d ->
      httpx_get E url params hdrs = Ret r ->
      status_code r <> 401 ->
      httpx_raise_for_status E r = Raise e ->
      pollinations_ends self E prompt kw w (caught "pollinations" e)
        (sent w [HttpGet url params hdrs])
  | ends_persist_get q d r e w' :
      let url := Pollinations.base_endpoint self q in
      let params := pollinations_params self kw d in
      let hdrs := Pollinations.headers self in
      urllib_quote E prompt = Ret q ->
      duration_text E kw = Ret d ->
      httpx_get E url params hdrs = Ret r ->
      status_code r <> 401 ->
      httpx_raise_for_status E r = Ret tt ->
      persist E (Pollinations.resolve_file_path self E (kw_output_path kw)) (content r)
        (sent w [HttpGet url params hdrs]) = (Raise e, w') ->
      pollinations_ends self E prompt kw w (caught "pollinations" e) w'
  | ends_saved_get q d r w' :
      let url := Pollinations.base_endpoint self q in
      let params := pollinations_params self kw d in
      let hdrs := Pollinations.headers self in
      let file_path := Pollinations.resolve_file_path self E (kw_output_path kw) in
      urllib_quote E prompt = Ret q ->
      duration_text E kw = Ret d ->
      httpx_get E url params hdrs = Ret r ->
      status_code r <> 401 ->
      httpx_raise_for_status E r = Ret tt ->
      persist E file_path (content r) (sent w [HttpGet url params hdrs]) = (Ret tt, w') ->
      pollinations_ends self E prompt kw w
        (Ret (mkGenerationResult true "pollinations" "video" (Some file_path)
                (Some (content r)) None None
                [("model", PStr (Pollinations.video_model (Pollinations.self_settings self)));
                 ("prompt", PStr prompt);
                 ("aspect_ratio", PStr (default "16:9" (kw_aspect_ratio kw)));
                 ("duration", PInt (default 5 (kw_duration_seconds kw)))]))
        w'.

(** A step inside the [try] block of [AIMLAPIVideoProvider.generate]
    raises [e], with the world as it is then. *)
Inductive aimlapi_step_raises (self : AIMLAPI.provider_state) (E : env) (prompt : string)
    (kw : kwargs) (w : world) : exn -> world -> Prop :=
  | submit_raises e :
      let payload := aimlapi_payload self prompt kw in
      client_submit_generation E "/v2/generate/video" payload = Raise e ->
      aimlapi_step_raises self E prompt kw w e
        (sent w [SubmitGeneration "/v2/generate/video" payload])
  | wait_raises result e :
      let payload := aimlapi_payload self prompt kw in
      let id := AIMLAPI.pick_generation_id result in
      client_submit_generation E "/v2/generate/video" payload = Ret result ->
      truthy id = true ->
      client_wait_for_completion E "/v2/generate/video" id = Raise e ->
      aimlapi_step_raises self E prompt kw w e
        (sent w [SubmitGeneration "/v2/generate/video" payload;
                 WaitForCompletion "/v2/generate/video" id])
  | extraction_raises result status e :
      let payload := aimlapi_payload self prompt kw in
      let id := AIMLAPI.pick_generation_id result in
      client_submit_generation E "/v2/generate/video" payload = Ret result ->
      truthy id = true ->
      client_wait_for_completion E "/v2/generate/video" id = Ret status ->
      _extract_video_url status = Raise e ->
      aimlapi_step_raises self E prompt kw w e
        (sent w [SubmitGeneration "/v2/generate/video" payload;
                 WaitForCompletion "/v2/generate/video" id])
  | download_raises result status video_url e :
      let payload := aimlapi_payload self prompt kw in
      let id := AIMLAPI.pick_generation_id result in
      client_submit_generation E "/v2/generate/video" payload = Ret result ->
      truthy id = true ->
      client_wait_for_completion E "/v2/generate/video" id = Ret status ->
      _extract_video_url status = Ret video_url ->
      truthy video_url = true ->
      client_download_file E video_url = Raise e ->
      aimlapi_step_raises self E prompt kw w e
        (sent w [SubmitGeneration "/v2/generate/video" payload;
                 WaitForCompletion "/v2/generate/video" id;
                 DownloadFile video_url])
  | saving_raises result status video_url video_data e w' :
      let payload := aimlapi_payload self prompt kw in
      let id := AIMLAPI.pick_generation_id result in
      client_submit_generation E "/v2/generate/video" payload = Ret result ->
      truthy id = true ->
      client_wait_for_completion E "/v2/generate/video" id = Ret status ->
      _extract_video_url status = Ret video_url ->
      truthy video_url = true ->
      client_download_file E video_url = Ret video_data ->
      persist E (AIMLAPI.resolve_file_path self E (kw_output_path kw)) video_data
        (sent w [SubmitGeneration "/v2/generate/video" payload;
                 WaitForCompletion "/v2/generate/video" id;
                 DownloadFile video_url]) = (Raise e, w') ->
      aimlapi_step_raises self E prompt kw w e w'.

(** The same for the [try] block of [PollinationsVideoProvider.generate],
    once the URL and the query are built. *)
Inductive pollinations_step_raises (self : Pollinations.provider_state) (E : env)
    (prompt : string) (kw : kwargs) (w : world) : exn -> world -> Prop :=
  | get_raises q d e :
      let url := Pollinations.base_endpoint self q in
      let params := pollinations_params self kw d in
      let hdrs := Pollinations.headers self in
      urllib_quote E prompt = Ret q ->
      duration_text E kw = Ret d ->
      httpx_get E url params hdrs = Raise e ->
      pollinations_step_raises self E prompt kw w e (sent w [HttpGet url params hdrs])
  | unauthorized_raises q d r :
      let url := Pollinations.base_endpoint self q in
      let params := pollinations_params self kw d in
      let hdrs := Pollinations.headers self in
      urllib_quote E prompt = Ret q ->
      duration_text E kw = Ret d ->
      httpx_get E url params hdrs = Ret r ->
      status_code r = 401 ->
      pollinations_step_raises self E prompt kw w (AuthenticationError E "pollinations")
        (sent w [HttpGet url params hdrs])
  | status_raises q d r e :
      let url := Pollinations.base_endpoint self q in
      let params := pollinations_params self kw d in
      let hdrs := Pollinations.headers self in
      urllib_quote E prompt = Ret q ->
      duration_text E kw = Ret d ->
      httpx_get E url params hdrs = Ret r ->
      status_code r <> 401 ->
      httpx_raise_for_status E r = Raise e ->
      pollinations_step_raises self E prompt kw w e (sent w [HttpGet url params hdrs])
  | saving_raises_get q d r e w' :
      let url := Pollinations.base_endpoint self q in
      let params := pollinations_params self kw d in
      let hdrs := Pollinations.headers self in
      urllib_quote E prompt = Ret q ->
      duration_text E kw = Ret d ->
      httpx_get E url params hdrs = Ret r ->
      status_code r <> 401 ->
      httpx_raise_for_status E r = Ret tt ->
      persist E (Pollinations.resolve_file_path self E (kw_output_path kw)) (content r)
        (sent w [HttpGet url params hdrs]) = (Raise e, w') ->
      pollinations_step_raises self E prompt kw w e w'.

Definition step_raises (p : video_provider) (E : env) (prompt : string) (kw : kwargs)
    (w : world) (e : exn) (w' : world) : Prop :=
  match p with
  | AIMLAPIVideoProvider self => aimlapi_step_raises self E prompt kw w e w'
  | PollinationsVideoProvider self => pollinations_step_raises self E prompt kw w e w'
  end.

(** The failed result the [except] clause builds from [e]. *)
Definition reported (p : video_provider) (e : exn) : GenerationResult :=
  mkGenerationResult false (provider_name p) "video" None None None (Some (exc_str e)) [].

(** The path a call writes to: [Path(output_path)] when the caller gives
    a non-empty one, the default path otherwise. *)
Definition target_path (p : video_provider) (E : env) (kw : kwargs) : path :=
  match p with
  | AIMLAPIVideoProvider self => AIMLAPI.resolve_file_path self E (kw_output_path kw)
  | PollinationsVideoProvider self => Pollinations.resolve_file_path self E (kw_output_path kw)
  end.

(** The keyword arguments with [first_frame_url] and [use_fast_model]
    left out. *)
Definition without_frame_and_speed (kw : kwargs) : kwargs :=
  Kwargs (kw_aspect_ratio kw) (kw_duration_seconds kw) None (kw_output_path kw) None.

(** The model [AIMLAPIVideoProvider.generate] asks for. *)
Definition requested_model (self : AIMLAPI.provider_state) (kw : kwargs) : string :=
  match kw_use_fast_model kw, AIMLAPI.video_fast_model (AIMLAPI.self_settings self) with
  | Some true, Some fast => fast
  | _, _ => AIMLAPI.video_model (AIMLAPI.self_settings self)
  end.

(** Worlds with something on the disk already. *)
Module Disk.

(** [exports/] holds an older video. *)
Definition with_old_video : world :=
  World (<[ ["exports"] := Dir ]>
           (<[ ["exports"; "old.mp4"] := File [Byte.x6f; Byte.x6c; Byte.x64] ]> ∅)) [].

(** [exports] is a regular file, not a directory. *)
Definition exports_is_a_file : world :=
  World (<[ ["exports"] := File [Byte.x00] ]> ∅) [].

End Disk.

(** * Properties *)

(** ** Running a computation backwards *)

Section Running.
Context {A B : Type}.

Lemma bind_inv (m : M A) (k : A -> M B) w o w' :
  (m ≫= k) w = (o, w') ->
  (exists a w1, m w = (Ret a, w1) /\ k a w1 = (o, w'))
  \/ (exists e, m w = (Raise e, w') /\ o = Raise e).
Proof.
  unfold mbind, M_bind, bind. destruct (m w) as [[a|e] w1]; intros H.
  - left. by exists a, w1.
  - right. exists e. by simplify_eq.
Qed.

Lemma try_inv (body : M A) (handler : exn -> M A) w o w' :
  try_except_Exception body handler w = (o, w') ->
  (exists a, body w = (Ret a, w') /\ o = Ret a)
  \/ (exists e w1, body w = (Raise e, w1) /\ exc_is_Exception e = true
                   /\ handler e w1 = (o, w'))
  \/ (exists e, body w = (Raise e, w') /\ exc_is_Exception e = false /\ o = Raise e).
Proof.
  unfold try_except_Exception. destruct (body w) as [[a|e] w1]; intros H.
  - left. exists a. by simplify_eq.
  - destruct (exc_is_Exception e) eqn:He.
    + right; left. by exists e, w1.
    + right; right. exists e. by simplify_eq.
Qed.

Lemma mret_inv (a : A) w o w' : (mret a : M A) w = (o, w') -> o = Ret a /\ w' = w.
Proof. unfold mret, M_ret, ret. intros; by simplify_eq. Qed.

Lemma raise_inv (e : exn) w (o : outcome A) w' :
  raise e w = (o, w') -> o = Raise e /\ w' = w.
Proof. unfold raise. intros; by simplify_eq. Qed.

Lemma eval_inv (x : outcome A) w o w' : eval x w = (o, w') -> o = x /\ w' = w.
Proof. unfold eval. intros; by simplify_eq. Qed.

Lemma call_inv (r : request) (x : outcome A) w o w' :
  call r x w = (o, w') -> o = x /\ w' = World (fs w) (wire w ++ [r]).
Proof. unfold call. intros; by simplify_eq. Qed.

End Running.

(** One step of symbolic execution on a hypothesis [m w = (o, w')]. *)
Ltac exec_step :=
  match goal with
  | H : (_ ≫= _) _ = (_, _) |- _ =>
      apply bind_inv in H; destruct H as [(? & ? & ? & H) | (? & H & ?)]
  | H : try_except_Exception _ _ _ = (_, _) |- _ =>
      apply try_inv in H;
      destruct H as [(? & H & ?) | [(? & ? & H & ? & ?) | (? & H & ? & ?)]]
  | H : @mret _ _ _ _ _ = (_, _) |- _ => apply mret_inv in H; destruct H as [? ?]
  | H : raise _ _ = (_, _) |- _ => apply raise_inv in H; destruct H as [? ?]
  | H : eval _ _ = (_, _) |- _ => apply eval_inv in H; destruct H as [? ?]
  | H : call _ _ _ = (_, _) |- _ => apply call_inv in H; destruct H as [? ?]
  | H : (if ?c then _ else _) _ = (_, _) |- _ => destruct c eqn:?
  end.

Ltac exec := repeat (exec_step; simplify_eq).

(** Running a closed call. *)
Ltac run := vm_compute; reflexivity.

Ltac open_aimlapi H :=
  unfold AIMLAPI.generate, AIMLAPI.submit_generation, AIMLAPI.wait_for_completion,
    AIMLAPI.download_file, AIMLAPI.name in H;
  cbv zeta in H.

Ltac open_pollinations H :=
  unfold Pollinations.generate, Pollinations.fetch, Pollinations.name in H; cbv zeta in H.

(** ** The file system operations *)

Lemma is_dir_insert_dir (f : filesystem) (q p : path) :
  is_dir f p = true -> is_dir (<[q := Dir]> f) p = true.
Proof.
  unfold is_dir. intros H. destruct (decide (q = p)) as [->|Hne].
  - by rewrite lookup_insert_eq.
  - by rewrite lookup_insert_ne.
Qed.

Lemma is_dir_insert_eq (f : filesystem) (q : path) : is_dir (<[q := Dir]> f) q = true.
Proof. unfold is_dir. by rewrite lookup_insert_eq. Qed.

Lemma is_dir_insert_file (f : filesystem) (p q : path) (d : bytes) :
  p <> q -> is_dir (<[p := File d]> f) q = is_dir f q.
Proof. intros Hne. unfold is_dir. by rewrite lookup_insert_ne. Qed.

Lemma ensure_dir_run E q w o w' :
  ensure_dir E q w = (o, w') ->
  wire w' = wire w
  /\ (forall p, is_dir (fs w) p = true -> is_dir (fs w') p = true)
  /\ (o = Ret tt -> is_dir (fs w') q = true)
  /\ (forall e, o = Raise e ->
        (exc_is_Exception e = true /\ exc_str e <> "") \/ raises E e).
Proof.
  unfold ensure_dir. intros H.
  destruct (is_dir (fs w) q) eqn:Hq; [by simplify_eq|].
  destruct (fs w !! q) as [n|] eqn:Hl.
  { simplify_eq. repeat split; try done. intros e [= <-]. by left. }
  destruct (mkdir_fault E q) as [e0|] eqn:Hf; simplify_eq; simpl.
  - repeat split; try done. intros e [= <-]. right. by eapply raises_mkdir.
  - repeat split; try done.
    + intros p. apply is_dir_insert_dir.
    + intros _. apply is_dir_insert_eq.
Qed.

Lemma ensure_dirs_run E qs : forall w o w',
  ensure_dirs E qs w = (o, w') ->
  wire w' = wire w
  /\ (forall p, is_dir (fs w) p = true -> is_dir (fs w') p = true)
  /\ (o = Ret tt -> forall q, In q qs -> is_dir (fs w') q = true)
  /\ (forall e, o = Raise e ->
        (exc_is_Exception e = true /\ exc_str e <> "") \/ raises E e).
Proof.
  induction qs as [|q qs IH]; intros w o w' H; simpl in H.
  - apply mret_inv in H as [-> ->]. by repeat split.
  - apply bind_inv in H as [([] & w1 & H1 & H2) | (e & H1 & ->)].
    + apply ensure_dir_run in H1 as (Hw1 & Hmono1 & Hq & _).
      apply IH in H2 as (Hw2 & Hmono2 & Hqs & Hexc).
      split_and!.
      * congruence.
      * auto.
      * intros Ho q' [<-|Hin]; [auto | by apply Hqs].
      * done.
    + apply ensure_dir_run in H1 as (Hw1 & Hmono1 & _ & Hexc).
      split_and!; [done | done | done | ]. intros e' [= <-]. by apply Hexc.
Qed.

Lemma write_bytes_run E p content w o w' :
  write_bytes E p content w = (o, w') ->
  wire w' = wire w
  /\ (o = Ret tt -> fs w' = <[p := File content]> (fs w) /\ is_dir (fs w) p = false)
  /\ (forall e, o = Raise e ->
        (exc_is_Exception e = true /\ exc_str e <> "") \/ raises E e).
Proof.
  unfold write_bytes. intros H.
  destruct (is_dir (fs w) p) eqn:Hp.
  { simplify_eq. repeat split; try done. intros e [= <-]. by left. }
  destruct (negb (is_dir (fs w) (parent p))).
  { destruct (fs w !! parent p) as [[|c]|]; simplify_eq;
      repeat split; try done; intros e [= <-]; by left. }
  destruct (ends_in_dotdot p).
  { simplify_eq. repeat split; try done. intros e [= <-]. by left. }
  destruct (disk_fault E p) as [[e0|e0 k]|] eqn:Hf; simplify_eq; simpl.
  - repeat split; try done. intros e [= <-]. right. by eapply raises_open.
  - repeat split; try done. intros e [= <-]. right. by eapply raises_write.
  - by repeat split.
Qed.

Lemma persist_intro E file_path video_data w o w1 w' :
  mkdir_parents E (parent file_path) w = (Ret tt, w1) ->
  write_bytes E file_path video_data w1 = (o, w') ->
  persist E file_path video_data w = (o, w').
Proof.
  intros H1 H2. unfold persist, mbind, M_bind, bind. rewrite H1.
  rewrite H2. by destruct o as [[]|e].
Qed.

Lemma persist_intro_raise E file_path video_data w e w' :
  mkdir_parents E (parent file_path) w = (Raise e, w') ->
  persist E file_path video_data w = (Raise e, w').
Proof. intros H1. unfold persist, mbind, M_bind, bind. by rewrite H1. Qed.

Lemma persist_run E file_path video_data w o w' :
  persist E file_path video_data w = (o, w') ->
  wire w' = wire w
  /\ (o = Ret tt ->
      fs w' !! file_path = Some (File video_data)
      /\ forall q, In q (prefixes (parent file_path)) -> is_dir (fs w') q = true)
  /\ (forall e, o = Raise e ->
        (exc_is_Exception e = true /\ exc_str e <> "") \/ raises E e).
Proof.
  unfold persist. intros H.
  apply bind_inv in H as [([] & w1 & H1 & H2) | (e & H1 & ->)].
  - apply ensure_dirs_run in H1 as (Hw1 & _ & Hdirs & _).
    apply write_bytes_run in H2 as (Hw2 & Hfile & Hexc).
    split_and!; [congruence | | done].
    intros Ho. destruct (Hfile Ho) as [-> Hnot]. split.
    + apply lookup_insert_eq.
    + intros q Hq. rewrite is_dir_insert_file; [by apply Hdirs|].
      intros <-. rewrite Hdirs in Hnot; done.
  - apply ensure_dirs_run in H1 as (Hw1 & _ & _ & Hexc).
    split_and!; [done | done |]. intros e' [= <-]. by apply Hexc.
Qed.

(** ** How a call ends *)

Lemma caught_Exception provider_name e :
  exc_is_Exception e = true ->
  Ret (mkGenerationResult false provider_name "video" None None None (Some (exc_str e)) [])
  = caught provider_name e.
Proof. unfold caught. by intros ->. Qed.

Lemma caught_other provider_name e :
  exc_is_Exception e = false -> Raise e = caught provider_name e.
Proof. unfold caught. by intros ->. Qed.

Ltac tidy provider_name :=
  repeat match goal with
    | H : Ret _ = _ |- _ => symmetry in H
    | H : Raise _ = _ |- _ => symmetry in H
    | H : negb _ = true |- _ => apply negb_true_iff in H
    | H : negb _ = false |- _ => apply negb_false_iff in H
    | u : unit |- _ => destruct u
    | H : Z.eqb _ _ = true |- _ => apply Z.eqb_eq in H
    | H : Z.eqb _ _ = false |- _ => apply Z.eqb_neq in H
    | H : exc_is_Exception ?e = true |- context [exc_str ?e] =>
        rewrite (caught_Exception _ e H)
    | H : exc_is_Exception ?e = false |- context [Raise ?e] =>
        rewrite (caught_other provider_name e H)
    end;
  cbn [fs wire] in *; rewrite <- ?app_assoc in *; cbn [app] in *.

Lemma aimlapi_generate_ends self E prompt kw w o w' :
  AIMLAPI.generate self E prompt kw w = (o, w') -> aimlapi_ends self E prompt kw w o w'.
Proof.
  intros H. open_aimlapi H. exec; tidy "aimlapi".
  all: try (eapply ends_submit; by eauto).
  all: try (eapply ends_no_id; by eauto).
  all: try (eapply ends_wait; by eauto).
  all: try (eapply ends_extract; by eauto).
  all: try (eapply ends_no_url; by eauto).
  all: try (eapply ends_download; by eauto).
  all: try (eapply ends_persist; by eauto using persist_intro, persist_intro_raise).
  all: try (eapply ends_saved; by eauto using persist_intro, persist_intro_raise).
Qed.

Lemma pollinations_generate_ends self E prompt kw w o w' :
  Pollinations.generate self E prompt kw w = (o, w') ->
  pollinations_ends self E prompt kw w o w'.
Proof.
  intros H. open_pollinations H. exec; tidy "pollinations";
    fold (duration_text E kw) in *.
  all: try (eapply ends_quote; by eauto).
  all: try (eapply ends_str; by eauto).
  all: try (eapply ends_get; by eauto).
  all: try (eapply ends_unauthorized; by eauto).
  all: try (eapply ends_status; by eauto).
  all: try (eapply ends_persist_get; by eauto using persist_intro, persist_intro_raise).
  all: try (eapply ends_saved_get; by eauto using persist_intro, persist_intro_raise).
Qed.

Ltac not_caught :=
  match goal with
  | H : caught _ ?e = Ret _ |- _ =>
      unfold caught in H; destruct (exc_is_Exception e); simplify_eq; simpl in *; done
  end.

Lemma requests_since_app (w w' : world) (new : list request) :
  wire w' = wire w ++ new -> requests_since w w' = new.
Proof. unfold requests_since. intros ->. apply drop_app_length. Qed.

Lemma aimlapi_first_request self E prompt kw w :
  exists rest,
    requests_since w (AIMLAPI.generate self E prompt kw w).2
    = SubmitGeneration "/v2/generate/video" (aimlapi_payload self prompt kw) :: rest.
Proof.
  destruct (AIMLAPI.generate self E prompt kw w) as [o w'] eqn:H.
  apply aimlapi_generate_ends in H.
  inversion H; subst; clear H;
    try match goal with
      | Hp : persist _ _ _ _ = _ |- _ => apply persist_run in Hp as (Hw & _ & _)
      end;
    eexists; apply requests_since_app;
    first [reflexivity | match goal with Hw : wire _ = _ |- _ => exact Hw end].
Qed.

Lemma pollinations_only_request self E prompt kw w q d :
  urllib_quote E prompt = Ret q ->
  duration_text E kw = Ret d ->
  requests_since w (Pollinations.generate self E prompt kw w).2
  = [HttpGet (Pollinations.base_endpoint self q) (pollinations_params self kw d)
       (Pollinations.headers self)].
Proof.
  intros Hq Hd.
  destruct (Pollinations.generate self E prompt kw w) as [o w'] eqn:H.
  apply pollinations_generate_ends in H.
  inversion H; subst; clear H;
    repeat match goal with x := _ |- _ => subst x end;
    rewrite ?Hq, ?Hd in *; simplify_eq;
    try match goal with
      | Hp : persist _ _ _ _ = _ |- _ => apply persist_run in Hp as (Hw & _ & _)
      end;
    apply requests_since_app;
    first [reflexivity | match goal with Hw : wire _ = _ |- _ => exact Hw end].
Qed.

(** A call makes its one request, or none when the URL or the query
    cannot be built. *)
Lemma pollinations_requests self E prompt kw w :
  requests_since w (Pollinations.generate self E prompt kw w).2 = []
  \/ exists q d,
       urllib_quote E prompt = Ret q /\ duration_text E kw = Ret d
       /\ requests_since w (Pollinations.generate self E prompt kw w).2
          = [HttpGet (Pollinations.base_endpoint self q) (pollinations_params self kw d)
               (Pollinations.headers self)].
Proof.
  destruct (urllib_quote E prompt) as [q|e] eqn:Hq;
    [destruct (duration_text E kw) as [d|e] eqn:Hd|].
  - right. exists q, d. split_and!; try done. by apply pollinations_only_request.
  - left. destruct (Pollinations.generate self E prompt kw w) as [o w'] eqn:H.
    apply pollinations_generate_ends in H.
    inversion H; subst; clear H; rewrite ?Hq, ?Hd in *; simplify_eq.
    apply drop_all.
  - left. destruct (Pollinations.generate self E prompt kw w) as [o w'] eqn:H.
    apply pollinations_generate_ends in H.
    inversion H; subst; clear H; rewrite ?Hq in *; simplify_eq.
    apply drop_all.
Qed.

(** An exception of the steps that precede the [try] block leaves
    [generate]; no request has been made and the world is unchanged. *)
Lemma pollinations_quote_raises self E prompt kw w e :
  urllib_quote E prompt = Raise e ->
  Pollinations.generate self E prompt kw w = (Raise e, w).
Proof.
  intros Hq. destruct (Pollinations.generate self E prompt kw w) as [o w'] eqn:H.
  apply pollinations_generate_ends in H.
  inversion H; subst; clear H; rewrite ?Hq in *; by simplify_eq.
Qed.

Lemma pollinations_str_raises self E prompt kw w q e :
  urllib_quote E prompt = Ret q ->
  duration_text E kw = Raise e ->
  Pollinations.generate self E prompt kw w = (Raise e, w).
Proof.
  intros Hq Hd. destruct (Pollinations.generate self E prompt kw w) as [o w'] eqn:H.
  apply pollinations_generate_ends in H.
  inversion H; subst; clear H; rewrite ?Hq, ?Hd in *; by simplify_eq.
Qed.

(** ** The output-extraction rule *)

(** The shapes the rule reads: a top-level ["url"], else a top-level
    ["video_url"], else the head of a list under ["output"] (a string, or
    an object with ["url"]), else an object under ["output"]; a missing,
    empty or scalar ["output"] gives [None]. *)
Lemma extract_documented_shapes (status : dict) :
  (forall u, lookup_key "url" status = Some u -> _extract_video_url status = Ret u)
  /\ (forall u, lookup_key "url" status = None ->
        lookup_key "video_url" status = Some u -> _extract_video_url status = Ret u)
  /\ (lookup_key "url" status = None -> lookup_key "video_url" status = None ->
       (forall s rest, dict_get status "output" = PList (PStr s :: rest) ->
          _extract_video_url status = Ret (PStr s))
       /\ (forall o rest, dict_get status "output" = PList (PDict o :: rest) ->
          _extract_video_url status = Ret (dict_get o "url"))
       /\ (forall o, dict_get status "output" = PDict o ->
          _extract_video_url status =
            Ret (if truthy (dict_get o "url") then dict_get o "url"
                 else dict_get o "video_url"))
       /\ (isinstance_dict (dict_get status "output") = false ->
           (isinstance_list (dict_get status "output") && truthy (dict_get status "output")) = false ->
          _extract_video_url status = Ret PNone)).
Proof.
  unfold _extract_video_url, contains, getitem. split_and!.
  - intros u ->. done.
  - intros u -> ->. done.
  - intros -> ->. split_and!.
    + by intros s rest ->.
    + by intros o rest ->.
    + by intros o ->.
    + by intros -> ->.
Qed.

(** An exception out of the rule is an ordinary one, with a message. *)
Lemma extract_raises status e :
  _extract_video_url status = Raise e -> exc_is_Exception e = true /\ exc_str e <> "".
Proof.
  unfold _extract_video_url, contains, getitem.
  destruct (lookup_key "url" status); [done|].
  destruct (lookup_key "video_url" status); [done|].
  destruct (dict_get status "output") as [| | | |[|first rest]|]; simpl; try done.
  destruct first; simpl; try done; intros [= <-]; done.
Qed.

(** C3: [_extract_video_url] returns the URL for every documented shape
    and [None] when no shape matches.  The code misses a case: on
    [{"output": [null]}], which matches no documented shape, the rule
    does not return [None] but raises [AttributeError]. *)
Theorem extract_video_url_null_entry :
  _extract_video_url [("output", PList [PNone])]
  = Raise (Exn "AttributeError" true "'NoneType' object has no attribute 'get'").
Proof. reflexivity. Qed.

(** [generate] then reports the [AttributeError] instead of the missing
    URL. *)
Example null_entry_is_reported :
  exists r w',
    AIMLAPI.generate Scenario.aimlapi
      (Scenario.with_status Scenario.happy (Ret [("output", PList [PNone])]))
      "a cat" no_kwargs Scenario.empty_world = (Ret r, w')
    /\ success r = false
    /\ error r = Some "'NoneType' object has no attribute 'get'".
Proof. eexists _, _. by split_and!. Qed.

(** The same for every non-empty list whose head is neither a string nor
    an object. *)
Lemma extract_video_url_bad_head (status : dict) first rest :
  lookup_key "url" status = None -> lookup_key "video_url" status = None ->
  dict_get status "output" = PList (first :: rest) ->
  isinstance_str first = false -> isinstance_dict first = false ->
  _extract_video_url status = Raise (AttributeError first "get").
Proof.
  unfold _extract_video_url, contains, getitem. intros -> -> -> Hs Hd. simpl.
  rewrite Hs. by destruct first.
Qed.

(** ** The shape of a result *)

(** C2: a result returned by either provider has, when [success] is true,
    [file_path] and [data] present and [error] absent, and when [success]
    is false, [error] present and [file_path] and [data] absent. *)
Theorem result_invariant (p : video_provider) (E : env) (prompt : string) (kw : kwargs)
    (w w' : world) (r : GenerationResult) :
  generate p E prompt kw w = (Ret r, w') ->
  (success r = true -> is_Some (file_path r) /\ is_Some (data r) /\ error r = None)
  /\ (success r = false -> is_Some (error r) /\ file_path r = None /\ data r = None).
Proof.
  destruct p as [self|self]; simpl; intros H.
  - open_aimlapi H. exec; simpl; split; intros; done.
  - open_pollinations H. exec; simpl; split; intros; done.
Qed.

Lemma result_invariant_witness :
  exists r w',
    generate (AIMLAPIVideoProvider Scenario.aimlapi) Scenario.happy "a cat" no_kwargs
      Scenario.empty_world = (Ret r, w')
    /\ ((success r = true -> is_Some (file_path r) /\ is_Some (data r) /\ error r = None)
        /\ (success r = false -> is_Some (error r) /\ file_path r = None /\ data r = None)).
Proof.
  eexists _, _. split; [reflexivity|].
  eapply (result_invariant (AIMLAPIVideoProvider Scenario.aimlapi) Scenario.happy
            "a cat" no_kwargs Scenario.empty_world).
  reflexivity.
Defined.

(** C10: a result returned by the Pollinations provider, successful or
    failed, has no [generation_id]; the call makes one GET request and no
    submission or status request. *)
Theorem pollinations_no_generation_id (self : Pollinations.provider_state) (E : env)
    (prompt : string) (kw : kwargs) (w w' : world) (r : GenerationResult) :
  Pollinations.generate self E prompt kw w = (Ret r, w') ->
  generation_id r = None
  /\ exists url params hdrs, requests_since w w' = [HttpGet url params hdrs].
Proof.
  intros H. apply pollinations_generate_ends in H.
  inversion H; subst; clear H;
    try match goal with
      | Hp : persist _ _ _ _ = _ |- _ => apply persist_run in Hp as (Hw & _ & _)
      end.
  all: split;
    [ first
        [ reflexivity
        | match goal with
          | Hc : caught _ ?x = Ret _ |- _ =>
              unfold caught in Hc; destruct (exc_is_Exception x); by simplify_eq
          end ]
    | eexists _, _, _; apply requests_since_app;
      first [reflexivity | exact Hw] ].
Qed.

Lemma pollinations_no_generation_id_witness :
  exists r w',
    Pollinations.generate Scenario.pollinations Scenario.happy "a cat" no_kwargs
      Scenario.empty_world = (Ret r, w')
    /\ generation_id r = None
    /\ exists url params hdrs,
         requests_since Scenario.empty_world w' = [HttpGet url params hdrs].
Proof.
  eexists _, _. split; [run|].
  eapply (pollinations_no_generation_id Scenario.pollinations Scenario.happy "a cat"
            no_kwargs Scenario.empty_world).
  run.
Defined.

(** ** Failures are reported, not raised *)

Ltac unlet := repeat match goal with x := _ |- _ => subst x end.

(** The outcome of a call is determined by the answers it gets. *)
Lemma aimlapi_ends_functional self E prompt kw w o1 w1 o2 w2 :
  aimlapi_ends self E prompt kw w o1 w1 ->
  aimlapi_ends self E prompt kw w o2 w2 ->
  (o1, w1) = (o2, w2).
Proof.
  intros H1 H2.
  inversion H1; subst; clear H1; unlet; inversion H2; subst; clear H2; unlet;
    congruence.
Qed.

Lemma pollinations_ends_functional self E prompt kw w o1 w1 o2 w2 :
  pollinations_ends self E prompt kw w o1 w1 ->
  pollinations_ends self E prompt kw w o2 w2 ->
  (o1, w1) = (o2, w2).
Proof.
  intros H1 H2.
  inversion H1; subst; clear H1; unlet; inversion H2; subst; clear H2; unlet;
    congruence.
Qed.

(** An exception raised inside the [try] block meets the [except]
    clause. *)
Lemma step_raises_generate (p : video_provider) (E : env) (prompt : string) (kw : kwargs)
    (w : world) (e : exn) (w1 : world) :
  step_raises p E prompt kw w e w1 ->
  generate p E prompt kw w = (caught (provider_name p) e, w1).
Proof.
  destruct p as [self|self]; unfold step_raises, generate; intros Hs;
    destruct (_ self E prompt kw w) as [o w'] eqn:H.
  - apply aimlapi_generate_ends in H.
    eapply aimlapi_ends_functional; [exact H|].
    inversion Hs; subst; clear Hs; unlet; econstructor; eassumption.
  - apply pollinations_generate_ends in H.
    eapply pollinations_ends_functional; [exact H|].
    inversion Hs; subst; clear Hs; unlet; econstructor; eassumption.
Qed.

Lemma step_raises_Exception (p : video_provider) (E : env) (prompt : string) (kw : kwargs)
    (w : world) (e : exn) (w1 : world) :
  provider_side E -> step_raises p E prompt kw w e w1 -> exc_is_Exception e = true.
Proof.
  intros HE Hs. destruct p as [self|self]; unfold step_raises in Hs;
    inversion Hs; subst; clear Hs; unlet.
  all: try (apply HE; eauto using raises; fail).
  all: try reflexivity.
  all: try (match goal with Hx : _extract_video_url _ = Raise _ |- _ =>
              by apply extract_raises in Hx as [? _] end).
  all: match goal with Hp : persist _ _ _ _ = _ |- _ =>
         apply persist_run in Hp as (_ & _ & Hexc) end.
  all: destruct (Hexc e eq_refl) as [[? _]|Hr]; [done | by apply HE].
Qed.

(** The C1 claim asks for a non-empty [error] on every failure.  It fails
    when the exception that is caught has an empty text, as httpx's
    [ReadTimeout] has: the result carries [error = ""]. *)
Lemma error_can_be_empty :
  exists r w',
    generate (PollinationsVideoProvider Scenario.pollinations)
      (Scenario.with_get Scenario.happy (Raise Scenario.ReadTimeout))
      "a cat" no_kwargs Scenario.empty_world = (Ret r, w')
    /\ success r = false
    /\ ~ (exists msg, error r = Some msg /\ msg <> "").
Proof.
  eexists _, _. split; [run|]. split; [reflexivity|].
  intros (msg & [= <-] & Hne). by apply Hne.
Qed.

(** C1, amended: every exception derived from [Exception] that a step
    inside the [try] block raises (the client, httpx, the extraction rule,
    the file system, the [AuthenticationError] of a 401) is caught:
    [generate] returns a result with [success = false] whose [error] is
    the text [str(e)] of that exception, which may be empty.  When the
    request can be built and the environment raises only such exceptions,
    the call returns a result, and that result is a success whose download
    completed and in which no step raised, or the report of the exception
    a step raised, or one of the two failures the code returns itself,
    with their fixed messages.  An exception of a step that precedes the
    [try] block (in [PollinationsVideoProvider.generate], quoting the
    prompt and printing the duration) is not caught: it leaves
    [generate], whatever its class. *)
Theorem failure_is_reported (p : video_provider) (E : env) (prompt : string)
    (kw : kwargs) (w : world) :
  (forall e w1,
     step_raises p E prompt kw w e w1 -> exc_is_Exception e = true ->
     exists r,
       generate p E prompt kw w = (Ret r, w1)
       /\ success r = false
       /\ error r = Some (exc_str e))
  /\ (request_built p E prompt kw -> provider_side E ->
      exists r w',
        generate p E prompt kw w = (Ret r, w')
        /\ ((success r = true
             /\ (exists video_data, downloaded p E (requests_since w w') video_data)
             /\ forall e w1, ~ step_raises p E prompt kw w e w1)
            \/ (success r = false
                /\ exists e, step_raises p E prompt kw w e w' /\ error r = Some (exc_str e))
            \/ (success r = false
                /\ (error r = Some "No video URL in response"
                    \/ exists result,
                         error r
                         = Some ("No generation ID in response: " +:+ format_dict E result)))))
  /\ (forall e, raised_before_try p E prompt kw e ->
        generate p E prompt kw w = (Raise e, w)).
Proof.
  assert (Hreport : forall e w1,
            step_raises p E prompt kw w e w1 -> exc_is_Exception e = true ->
            generate p E prompt kw w = (Ret (reported p e), w1)).
  { intros e w1 Hs He. rewrite (step_raises_generate p E prompt kw w e w1 Hs).
    unfold caught. rewrite He. by destruct p. }
  split; [intros e w1 Hs He; exists (reported p e); split_and!;
          [by apply Hreport | done | done]|].
  split.
  2: { destruct p as [self|self]; simpl; intros e He; [done|].
       destruct He as [Hq|[[q Hq] Hd]].
       - by apply pollinations_quote_raises.
       - by apply (pollinations_str_raises self E prompt kw w q e). }
  intros Hbuilt HE.
  assert (Hnone : forall r w', generate p E prompt kw w = (Ret r, w') ->
            success r = true -> forall e w1, ~ step_raises p E prompt kw w e w1).
  { intros r w' Hg Hs e w1 Hstep.
    pose proof (step_raises_Exception p E prompt kw w e w1 HE Hstep) as He.
    rewrite (Hreport e w1 Hstep He) in Hg. by simplify_eq. }
  destruct (generate p E prompt kw w) as [o w'] eqn:H.
  assert (Hraised : forall e,
            step_raises p E prompt kw w e w' -> o = caught (provider_name p) e ->
            exists r w'',
              (o, w') = (Ret r, w'')
              /\ ((success r = true
                   /\ (exists video_data, downloaded p E (requests_since w w'') video_data)
                   /\ forall e w1, ~ step_raises p E prompt kw w e w1)
                  \/ (success r = false
                      /\ exists e, step_raises p E prompt kw w e w''
                                   /\ error r = Some (exc_str e))
                  \/ (success r = false
                      /\ (error r = Some "No video URL in response"
                          \/ exists result,
                               error r
                               = Some ("No generation ID in response: "
                                       +:+ format_dict E result))))).
  { intros e Hs ->. pose proof (step_raises_Exception p E prompt kw w e w' HE Hs) as He.
    exists (reported p e), w'. split.
    - unfold caught. rewrite He. by destruct p.
    - right. left. split; [done|]. by exists e. }
  destruct p as [self|self]; unfold generate in H; cbn [request_built] in Hbuilt.
  - apply aimlapi_generate_ends in H as Hends. inversion Hends; subst; clear Hends; unlet.
    all: try (eapply Hraised; [simpl; econstructor; eassumption | reflexivity]).
    + eexists _, _. split; [reflexivity|]. right. right. split; [done|]. right. eauto.
    + eexists _, _. split; [reflexivity|]. right. right. split; [done|]. by left.
    + eexists _, _. split; [reflexivity|]. left. split; [done|]. split.
      * match goal with Hp : persist _ _ _ _ = _ |- _ =>
          apply persist_run in Hp as (Hw & _ & _) end.
        exists video_data, video_url. split; [|done].
        rewrite (requests_since_app w w' _ Hw). simpl. auto.
      * by eapply Hnone.
  - destruct Hbuilt as [[q0 Hq] [d0 Hd]].
    apply pollinations_generate_ends in H as Hends.
    inversion Hends; subst; clear Hends; unlet; try congruence.
    all: try (eapply Hraised; [simpl; econstructor; eassumption | reflexivity]).
    eexists _, _. split; [reflexivity|]. left. split; [done|]. split.
    + match goal with Hp : persist _ _ _ _ = _ |- _ =>
        apply persist_run in Hp as (Hw & _ & _) end.
      eexists (content r), _, _, _, r.
      rewrite (requests_since_app w w' _ Hw). simpl. split_and!; eauto.
    + by eapply Hnone.
Qed.

Lemma provider_side_read_timeout :
  provider_side (Scenario.with_get Scenario.happy (Raise Scenario.ReadTimeout)).
Proof.
  intros e He. inversion He as [? ? ? H|? ? ? H|? ? H|? ? ? ? H|r ? H|? ? H|? ? H|? ? ? H];
    simpl in H; try discriminate H.
  - by injection H as <-.
  - unfold Scenario.raise_for_status in H.
    destruct (_ && _); [discriminate H|]. by injection H as <-.
Qed.

Lemma failure_is_reported_witness :
  let P := PollinationsVideoProvider Scenario.pollinations in
  let E := Scenario.with_get Scenario.happy (Raise Scenario.ReadTimeout) in
  exists w1,
    step_raises P E "a cat" no_kwargs Scenario.empty_world Scenario.ReadTimeout w1
    /\ exc_is_Exception Scenario.ReadTimeout = true
    /\ request_built P E "a cat" no_kwargs
    /\ provider_side E
    /\ (exists r,
          generate P E "a cat" no_kwargs Scenario.empty_world = (Ret r, w1)
          /\ success r = false
          /\ error r = Some (exc_str Scenario.ReadTimeout))
    /\ exists r w',
         generate P E "a cat" no_kwargs Scenario.empty_world = (Ret r, w')
         /\ ((success r = true
              /\ (exists video_data,
                    downloaded P E (requests_since Scenario.empty_world w') video_data)
              /\ forall e w2, ~ step_raises P E "a cat" no_kwargs Scenario.empty_world e w2)
             \/ (success r = false
                 /\ exists e,
                      step_raises P E "a cat" no_kwargs Scenario.empty_world e w'
                      /\ error r = Some (exc_str e))
             \/ (success r = false
                 /\ (error r = Some "No video URL in response"
                     \/ exists result,
                          error r
                          = Some ("No generation ID in response: "
                                  +:+ format_dict E result)))).
Proof.
  intros P E.
  assert (Hbuilt : request_built P E "a cat" no_kwargs).
  { split; [by exists "a cat" | by exists "5"]. }
  assert (Hstep : step_raises P E "a cat" no_kwargs Scenario.empty_world
                    Scenario.ReadTimeout
                    (sent Scenario.empty_world
                       [HttpGet (Pollinations.base_endpoint Scenario.pollinations "a cat")
                          (pollinations_params Scenario.pollinations no_kwargs "5")
                          (Pollinations.headers Scenario.pollinations)])).
  { simpl. by eapply (get_raises Scenario.pollinations E "a cat" no_kwargs
                        Scenario.empty_world "a cat" "5"). }
  eexists. split; [exact Hstep|]. split; [reflexivity|]. split; [exact Hbuilt|].
  split; [exact provider_side_read_timeout|].
  destruct (failure_is_reported P E "a cat" no_kwargs Scenario.empty_world)
    as (Hall & Hsome & _).
  split; [exact (Hall _ _ Hstep eq_refl)|].
  exact (Hsome Hbuilt provider_side_read_timeout).
Defined.

(** ** The output file *)

(** C7: the output file is written only after the download of the binary
    content has completed: when a call ends (with a result, an exception
    or a cancellation) before the download has completed, the file system
    is as it was before the call. *)
Theorem no_file_before_download (p : video_provider) (E : env) (prompt : string)
    (kw : kwargs) (w w' : world) (o : outcome GenerationResult) :
  generate p E prompt kw w = (o, w') ->
  ~ (exists video_data, downloaded p E (requests_since w w') video_data) ->
  fs w' = fs w.
Proof.
  destruct p as [self|self]; unfold generate; intros H Hnot.
  - apply aimlapi_generate_ends in H. inversion H; subst; clear H; try reflexivity.
    all: match goal with Hp : persist _ _ _ _ = _ |- _ =>
           apply persist_run in Hp as (Hw & _ & _) end.
    all: exfalso; apply Hnot; exists video_data, video_url; split; [|done].
    all: rewrite (requests_since_app w w' _ Hw); simpl; auto.
  - apply pollinations_generate_ends in H. inversion H; subst; clear H; try reflexivity.
    all: match goal with Hp : persist _ _ _ _ = _ |- _ =>
           apply persist_run in Hp as (Hw & _ & _) end.
    all: exfalso; apply Hnot; exists (content r), url, params, hdrs, r.
    all: rewrite (requests_since_app w w' _ Hw); simpl; auto 10.
Qed.

Lemma no_file_before_download_witness :
  exists o w',
    generate (AIMLAPIVideoProvider Scenario.aimlapi)
      (Scenario.with_download Scenario.happy (Raise Scenario.CancelledError))
      "a cat" no_kwargs Scenario.empty_world = (o, w')
    /\ ~ (exists video_data,
            downloaded (AIMLAPIVideoProvider Scenario.aimlapi)
              (Scenario.with_download Scenario.happy (Raise Scenario.CancelledError))
              (requests_since Scenario.empty_world w') video_data)
    /\ fs w' = fs Scenario.empty_world.
Proof.
  eexists _, _. split; [reflexivity|].
  assert (Hnot : ~ (exists video_data,
            downloaded (AIMLAPIVideoProvider Scenario.aimlapi)
              (Scenario.with_download Scenario.happy (Raise Scenario.CancelledError))
              (requests_since Scenario.empty_world
                 (generate (AIMLAPIVideoProvider Scenario.aimlapi)
                    (Scenario.with_download Scenario.happy (Raise Scenario.CancelledError))
                    "a cat" no_kwargs Scenario.empty_world).2) video_data)).
  { intros (video_data & url & _ & H). discriminate H. }
  split; [exact Hnot|].
  exact (no_file_before_download (AIMLAPIVideoProvider Scenario.aimlapi)
           (Scenario.with_download Scenario.happy (Raise Scenario.CancelledError))
           "a cat" no_kwargs Scenario.empty_world _ _ eq_refl Hnot).
Defined.

(** C8: after a successful generation the file at [file_path] holds
    exactly the downloaded bytes, which are the result's [data], and
    every ancestor directory of the file exists. *)
Theorem saved_file_is_the_download (p : video_provider) (E : env) (prompt : string)
    (kw : kwargs) (w w' : world) (r : GenerationResult) :
  generate p E prompt kw w = (Ret r, w') ->
  success r = true ->
  exists file video_data,
    file_path r = Some file
    /\ data r = Some video_data
    /\ downloaded p E (requests_since w w') video_data
    /\ fs w' !! file = Some (File video_data)
    /\ forall q, In q (prefixes (parent file)) -> is_dir (fs w') q = true.
Proof.
  destruct p as [self|self]; unfold generate; intros H Hs.
  - apply aimlapi_generate_ends in H. inversion H; subst; clear H;
      try not_caught; try discriminate Hs.
    match goal with Hp : persist _ _ _ _ = _ |- _ =>
      apply persist_run in Hp as (Hw & Hfile & _) end.
    destruct (Hfile eq_refl) as [Hlook Hdirs].
    eexists _, _. split_and!; [reflexivity | reflexivity | | exact Hlook | exact Hdirs].
    eexists. split; [|eassumption].
    rewrite (requests_since_app w w' _ Hw); simpl; auto.
  - apply pollinations_generate_ends in H. inversion H; subst; clear H;
      try not_caught; try discriminate Hs.
    match goal with Hp : persist _ _ _ _ = _ |- _ =>
      apply persist_run in Hp as (Hw & Hfile & _) end.
    destruct (Hfile eq_refl) as [Hlook Hdirs].
    eexists _, _. split_and!; [reflexivity | reflexivity | | exact Hlook | exact Hdirs].
    eexists _, _, _, _.
    split_and!; [ | eassumption | eassumption | eassumption | reflexivity].
    rewrite (requests_since_app w w' _ Hw); simpl; auto.
Qed.

Lemma saved_file_is_the_download_witness :
  exists r w',
    generate (PollinationsVideoProvider Scenario.pollinations) Scenario.happy "a cat"
      no_kwargs Scenario.empty_world = (Ret r, w')
    /\ success r = true
    /\ exists file video_data,
         file_path r = Some file
         /\ data r = Some video_data
         /\ downloaded (PollinationsVideoProvider Scenario.pollinations) Scenario.happy
              (requests_since Scenario.empty_world w') video_data
         /\ fs w' !! file = Some (File video_data)
         /\ forall q, In q (prefixes (parent file)) -> is_dir (fs w') q = true.
Proof.
  eexists _, _. split; [run|]. split; [reflexivity|].
  eapply (saved_file_is_the_download (PollinationsVideoProvider Scenario.pollinations)
            Scenario.happy "a cat" no_kwargs Scenario.empty_world); [run | reflexivity].
Defined.

(** ** The generation id *)

(** The C6 claim takes the id from ["id"] whenever that field is present.
    On the response [{"id": 0, "generation_id": "g1"}] the field is
    present, and the id used is ["g1"]. *)
Lemma falsy_id_is_skipped :
  let result := [("id", PInt 0); ("generation_id", PStr "g1")] in
  exists r w',
    generate (AIMLAPIVideoProvider Scenario.aimlapi)
      (Scenario.with_submit Scenario.happy (Ret result))
      "a cat" no_kwargs Scenario.empty_world = (Ret r, w')
    /\ contains "id" result = true
    /\ generation_id r = Some (PStr "g1")
    /\ generation_id r <> Some (dict_get result "id").
Proof.
  eexists _, _. split; [reflexivity|]. split; [reflexivity|]. split; [reflexivity|].
  discriminate.
Qed.

(** C6, amended: the generation id is the value of ["id"] when that value
    is truthy (present, and not [None], [0], [""] or empty), and otherwise
    the value of ["generation_id"].  When the chosen value is not truthy
    (in particular when the response has neither field) the call makes no
    further request and returns a failed result whose error reports the
    missing generation id; otherwise the status is requested for that id,
    and a successful result carries it. *)
Theorem generation_id_choice (self : AIMLAPI.provider_state) (E : env) (prompt : string)
    (kw : kwargs) (w w' : world) (o : outcome GenerationResult) (result : dict) :
  let payload := aimlapi_payload self prompt kw in
  let id := if truthy (dict_get result "id") then dict_get result "id"
            else dict_get result "generation_id" in
  client_submit_generation E "/v2/generate/video" payload = Ret result ->
  AIMLAPI.generate self E prompt kw w = (o, w') ->
  (truthy id = false ->
     o = Ret (mkGenerationResult false "aimlapi" "video" None None None
                (Some ("No generation ID in response: " +:+ format_dict E result)) [])
     /\ requests_since w w' = [SubmitGeneration "/v2/generate/video" payload])
  /\ (truthy id = true ->
      (exists rest,
         requests_since w w'
         = SubmitGeneration "/v2/generate/video" payload
           :: WaitForCompletion "/v2/generate/video" id :: rest)
      /\ forall r, o = Ret r -> success r = true -> generation_id r = Some id)
  /\ (contains "id" result = false -> contains "generation_id" result = false ->
      truthy id = false).
Proof.
  intros payload id Hsubmit H. subst payload.
  change id with (AIMLAPI.pick_generation_id result) in *. clear id.
  apply aimlapi_generate_ends in H.
  split_and!.
  - intros Hid. inversion H; subst; clear H;
      repeat match goal with x := _ |- _ => subst x end;
      rewrite ?Hsubmit in *; simplify_eq; try congruence.
    split; [done|]. by apply requests_since_app.
  - intros Hid. inversion H; subst; clear H;
      repeat match goal with x := _ |- _ => subst x end;
      rewrite ?Hsubmit in *; simplify_eq; try congruence;
      try match goal with
        | Hp : persist _ _ _ _ = _ |- _ => apply persist_run in Hp as (Hw & _ & _)
        end.
    all: split;
      [eexists; apply requests_since_app;
       first [reflexivity | match goal with Hw : wire _ = _ |- _ => exact Hw end]|].
    all: intros r' Hr' Hs; try not_caught; simplify_eq; simpl in *; try done.
  - unfold AIMLAPI.pick_generation_id, py_or, contains, dict_get.
    destruct (lookup_key "id" result); [done|].
    destruct (lookup_key "generation_id" result); done.
Qed.

Lemma generation_id_choice_witness :
  let result := [("id", PStr "abc123")] in
  let payload := aimlapi_payload Scenario.aimlapi "a cat" no_kwargs in
  exists o w',
    client_submit_generation Scenario.happy "/v2/generate/video" payload = Ret result
    /\ AIMLAPI.generate Scenario.aimlapi Scenario.happy "a cat" no_kwargs
         Scenario.empty_world = (o, w')
    /\ (truthy (PStr "abc123") = true ->
        (exists rest,
           requests_since Scenario.empty_world w'
           = SubmitGeneration "/v2/generate/video" payload
             :: WaitForCompletion "/v2/generate/video" (PStr "abc123") :: rest)
        /\ forall r, o = Ret r -> success r = true ->
                     generation_id r = Some (PStr "abc123")).
Proof.
  eexists _, _. split; [reflexivity|]. split; [reflexivity|].
  exact (proj1 (proj2
    (generation_id_choice Scenario.aimlapi Scenario.happy "a cat" no_kwargs
       Scenario.empty_world _ _ [("id", PStr "abc123")] eq_refl eq_refl))).
Defined.

(** ** The duration that is sent *)

(** The C4 claim has the duration clamped to [max_duration_seconds] before
    it is sent.  The Pollinations provider sends a requested 60 seconds as
    ["60"], not as the maximum ["10"]; the AIMLAPI provider sends 10 for a
    requested 7 seconds, where clamping would send 7. *)
Lemma duration_is_not_clamped :
  let kw60 := Kwargs None (Some 60) None None None in
  let kw7 := Kwargs None (Some 7) None None None in
  (exists url params hdrs,
     requests_since Scenario.empty_world
       (generate (PollinationsVideoProvider Scenario.pollinations) Scenario.happy
          "a cat" kw60 Scenario.empty_world).2
     = [HttpGet url params hdrs]
     /\ dict_get params "duration" = PStr "60"
     /\ str_int (int_max_str_digits Scenario.happy)
          (clamp (max_duration_seconds (PollinationsVideoProvider Scenario.pollinations)) 60)
        = Ret "10"
     /\ dict_get params "duration" <> PStr "10")
  /\ (exists payload rest,
        requests_since Scenario.empty_world
          (generate (AIMLAPIVideoProvider Scenario.aimlapi) Scenario.happy
             "a cat" kw7 Scenario.empty_world).2
        = SubmitGeneration "/v2/generate/video" payload :: rest
        /\ dict_get payload "duration" = PInt 10
        /\ dict_get payload "duration"
           <> PInt (clamp (max_duration_seconds (AIMLAPIVideoProvider Scenario.aimlapi)) 7)).
Proof.
  split.
  - eexists _, _, _. split; [run|]. split; [reflexivity|]. split; [reflexivity|].
    by vm_compute.
  - eexists _, _. split; [reflexivity|]. split; [reflexivity|]. by vm_compute.
Qed.

Lemma aimlapi_payload_duration self prompt kw :
  dict_get (aimlapi_payload self prompt kw) "duration"
  = PInt (if Z.ltb 5 (default 5 (kw_duration_seconds kw)) then 10 else 5).
Proof.
  unfold aimlapi_payload, AIMLAPI.build_payload.
  destruct (kw_first_frame_url kw) as [u|]; [|reflexivity].
  destruct (truthy_str (Some u)); reflexivity.
Qed.

Lemma pollinations_params_duration self kw (duration : string) :
  dict_get (pollinations_params self kw duration) "duration" = PStr duration.
Proof.
  unfold pollinations_params, Pollinations.build_params.
  destruct (truthy_str _); reflexivity.
Qed.

(** [str] of an integer either raises or is its decimal text. *)
Lemma str_int_text (limit : N) (n : Z) (s : string) :
  str_int limit n = Ret s -> s = pretty n.
Proof. unfold str_int. destruct (_ && _); congruence. Qed.

(** One digit never exceeds the limit: [str(5)] returns whatever the
    limit is. *)
Lemma str_int_5 (limit : N) : str_int limit 5 = Ret "5".
Proof.
  unfold str_int. change (decimal_digits 5) with 1%N.
  destruct (N.eqb_spec limit 0) as [->|Hne]; [reflexivity|].
  destruct (N.ltb_spec limit 1); [lia|reflexivity].
Qed.

(** C4, amended: the duration is not clamped.  The AIMLAPI provider sends
    [duration = 10] when the requested [duration_seconds] exceeds 5 and
    [duration = 5] otherwise, so what it sends never exceeds its
    [max_duration_seconds] of 10.  The Pollinations provider sends
    [str(duration_seconds)]: when the prompt can be quoted and [str]
    returns, the one request carries the decimal text of the requested
    [duration_seconds], unchanged; when [str] raises (an integer of more
    digits than the interpreter's limit) the exception leaves [generate]
    and nothing is sent.  In both providers [duration_seconds] is 5 when
    the caller does not supply it. *)
Theorem duration_sent (aspect_ratio : option string) (duration_seconds : option Z)
    (first_frame_url output_path : option string) (use_fast_model : option bool) :
  let kw := Kwargs aspect_ratio duration_seconds first_frame_url output_path use_fast_model in
  let unset := Kwargs aspect_ratio None first_frame_url output_path use_fast_model in
  let d := default 5 duration_seconds in
  (forall self E prompt w,
     exists payload rest,
       requests_since w (generate (AIMLAPIVideoProvider self) E prompt kw w).2
       = SubmitGeneration "/v2/generate/video" payload :: rest
       /\ dict_get payload "duration" = PInt (if Z.ltb 5 d then 10 else 5)
       /\ (if Z.ltb 5 d then 10 else 5) <= max_duration_seconds (AIMLAPIVideoProvider self))
  /\ (forall self E prompt w q s,
        urllib_quote E prompt = Ret q ->
        str_int (int_max_str_digits E) d = Ret s ->
        s = pretty d
        /\ exists url params hdrs,
             requests_since w (generate (PollinationsVideoProvider self) E prompt kw w).2
             = [HttpGet url params hdrs]
             /\ dict_get params "duration" = PStr s)
  /\ (forall self E prompt w q e,
        urllib_quote E prompt = Ret q ->
        str_int (int_max_str_digits E) d = Raise e ->
        generate (PollinationsVideoProvider self) E prompt kw w = (Raise e, w))
  /\ (forall self prompt, dict_get (aimlapi_payload self prompt unset) "duration" = PInt 5)
  /\ (forall self E,
        duration_text E unset = Ret "5"
        /\ dict_get (pollinations_params self unset "5") "duration" = PStr "5").
Proof.
  intros kw unset d. split_and!.
  - intros self E prompt w. destruct (aimlapi_first_request self E prompt kw w) as [rest Hr].
    exists (aimlapi_payload self prompt kw), rest. split_and!.
    + exact Hr.
    + apply aimlapi_payload_duration.
    + simpl. unfold AIMLAPI.max_duration_seconds. destruct (Z.ltb 5 d); lia.
  - intros self E prompt w q s Hq Hs. split; [by apply str_int_text in Hs|].
    eexists _, _, _. split.
    + by apply (pollinations_only_request self E prompt kw w q s).
    + apply pollinations_params_duration.
  - intros self E prompt w q e Hq He.
    by apply (pollinations_str_raises self E prompt kw w q e).
  - intros self prompt. by rewrite aimlapi_payload_duration.
  - intros self E. split; [apply str_int_5 | apply pollinations_params_duration].
Qed.

Lemma duration_sent_witness :
  let kw := Kwargs None (Some 60) None None None in
  urllib_quote Scenario.happy "a cat" = Ret "a cat"
  /\ str_int (int_max_str_digits Scenario.happy) 60 = Ret "60"
  /\ "60" = pretty 60
  /\ exists url params hdrs,
       requests_since Scenario.empty_world
         (generate (PollinationsVideoProvider Scenario.pollinations) Scenario.happy
            "a cat" kw Scenario.empty_world).2
       = [HttpGet url params hdrs]
       /\ dict_get params "duration" = PStr "60".
Proof.
  split; [reflexivity|]. split; [reflexivity|].
  exact (proj1 (proj2 (duration_sent None (Some 60) None None None))
           Scenario.pollinations Scenario.happy "a cat" Scenario.empty_world
           "a cat" "60" eq_refl eq_refl).
Defined.

(** ** The Authorization header of the Pollinations request *)

Lemma headers_authorization (self : Pollinations.provider_state) :
  Pollinations.headers self !! "Authorization"
  = match Pollinations.api_key (Pollinations.self_settings self) with
    | Some k => if String.eqb k "" then None else Some ("Bearer " +:+ k)
    | None => None
    end.
Proof.
  unfold Pollinations.headers, truthy_str.
  destruct (Pollinations.api_key (Pollinations.self_settings self)) as [k|]; [|done].
  destruct (String.eqb k ""); simpl; [done|].
  by rewrite lookup_insert_eq.
Qed.

Lemma headers_content_type (self : Pollinations.provider_state) :
  Pollinations.headers self !! "Content-Type" = Some "application/json".
Proof.
  unfold Pollinations.headers, truthy_str.
  destruct (Pollinations.api_key (Pollinations.self_settings self)) as [k|]; [|done].
  destruct (String.eqb k ""); simpl; [done|]. by rewrite lookup_insert_ne.
Qed.

(** C9: the request the Pollinations provider sends carries the header
    [Authorization: Bearer <key>] exactly when an API key is configured
    (a non-empty key, as [if self.settings.api_key] tests it), and no
    [Authorization] header when the key is unset ([None] or empty).  This
    holds of every request a call makes; and a call whose URL and query
    can be built (the prompt is quoted and the duration printed) makes
    exactly one request, a GET. *)
Theorem pollinations_bearer_header (self : Pollinations.provider_state) (E : env)
    (prompt : string) (kw : kwargs) (w : world) :
  let authorization :=
    match Pollinations.api_key (Pollinations.self_settings self) with
    | Some k => if String.eqb k "" then None else Some ("Bearer " +:+ k)
    | None => None
    end in
  (forall rq, In rq (requests_since w (Pollinations.generate self E prompt kw w).2) ->
     exists url params hdrs,
       rq = HttpGet url params hdrs
       /\ hdrs !! "Content-Type" = Some "application/json"
       /\ hdrs !! "Authorization" = authorization)
  /\ (forall q d,
        urllib_quote E prompt = Ret q -> duration_text E kw = Ret d ->
        exists url params hdrs,
          requests_since w (Pollinations.generate self E prompt kw w).2
          = [HttpGet url params hdrs]
          /\ hdrs !! "Content-Type" = Some "application/json"
          /\ hdrs !! "Authorization" = authorization).
Proof.
  intros authorization. split.
  - intros rq Hin.
    destruct (pollinations_requests self E prompt kw w) as [Hnone|(q & d & _ & _ & Hone)].
    + rewrite Hnone in Hin. destruct Hin.
    + rewrite Hone in Hin. destruct Hin as [<-|[]].
      eexists _, _, _. split; [reflexivity|].
      split; [apply headers_content_type | apply headers_authorization].
  - intros q d Hq Hd. eexists _, _, _. split_and!.
    + by apply (pollinations_only_request self E prompt kw w q d).
    + apply headers_content_type.
    + apply headers_authorization.
Qed.

Lemma pollinations_bearer_header_witness :
  urllib_quote Scenario.happy "a cat" = Ret "a cat"
  /\ duration_text Scenario.happy no_kwargs = Ret "5"
  /\ exists url params hdrs,
       requests_since Scenario.empty_world
         (Pollinations.generate Scenario.pollinations Scenario.happy "a cat" no_kwargs
            Scenario.empty_world).2
       = [HttpGet url params hdrs]
       /\ hdrs !! "Content-Type" = Some "application/json"
       /\ hdrs !! "Authorization" = Some "Bearer sk-test".
Proof.
  split; [reflexivity|]. split; [reflexivity|].
  exact (proj2 (pollinations_bearer_header Scenario.pollinations Scenario.happy "a cat"
                  no_kwargs Scenario.empty_world)
           "a cat" "5" eq_refl eq_refl).
Defined.

Example bearer_header_with_key :
  Pollinations.headers Scenario.pollinations !! "Authorization" = Some "Bearer sk-test".
Proof. reflexivity. Qed.

Example no_bearer_header_without_key :
  Pollinations.headers Scenario.pollinations_anonymous !! "Authorization" = None.
Proof. reflexivity. Qed.

(** ** The default file path *)

Lemma digit_code (n : N) : N_of_ascii (digit n) = (48 + n mod 10)%N.
Proof.
  unfold digit. apply N_ascii_embedding.
  assert (n mod 10 < 10)%N by (apply N.mod_lt; lia). lia.
Qed.

Lemma digit_inj (a b : N) : digit a = digit b -> (a mod 10 = b mod 10)%N.
Proof.
  intros H. apply (f_equal N_of_ascii) in H. rewrite !digit_code in H. lia.
Qed.

Lemma digit_not_slash (n : N) : Ascii.eqb (digit n) "/" = false.
Proof.
  apply Ascii.eqb_neq. intros H. apply (f_equal N_of_ascii) in H.
  rewrite digit_code in H. change (N_of_ascii "/") with 47%N in H.
  pose proof (N.le_0_l (n mod 10)). lia.
Qed.

Lemma two_digits (n : N) :
  (n < 100)%N -> n = (10 * ((n / 10) mod 10) + n mod 10)%N.
Proof. intros H. zify. Z.to_euclidean_division_equations. lia. Qed.

Lemma four_digits (n : N) :
  (n < 10000)%N ->
  n = (1000 * ((n / 1000) mod 10) + 100 * ((n / 100) mod 10)
       + 10 * ((n / 10) mod 10) + n mod 10)%N.
Proof. intros H. zify. Z.to_euclidean_division_equations. lia. Qed.

Lemma pad2_inj (a b : N) : (a < 100)%N -> (b < 100)%N -> pad2 a = pad2 b -> a = b.
Proof.
  unfold pad2. intros Ha Hb [= H1 H2]. apply digit_inj in H1, H2.
  rewrite (two_digits a Ha), (two_digits b Hb). by rewrite H1, H2.
Qed.

Lemma pad4_inj (a b : N) : (a < 10000)%N -> (b < 10000)%N -> pad4 a = pad4 b -> a = b.
Proof.
  unfold pad4, pad2. intros Ha Hb [= H1 H2 H3 H4]. apply digit_inj in H1, H2, H3, H4.
  rewrite (four_digits a Ha), (four_digits b Hb). by rewrite H1, H2, H3, H4.
Qed.

Lemma strftime_inj (t1 t2 : datetime) :
  valid_datetime t1 -> valid_datetime t2 ->
  strftime_Ymd_HMS t1 = strftime_Ymd_HMS t2 ->
  to_the_second t1 = to_the_second t2.
Proof.
  intros (Hy1 & Hm1 & Hd1 & HH1 & HM1 & HS1 & _) (Hy2 & Hm2 & Hd2 & HH2 & HM2 & HS2 & _).
  unfold strftime_Ymd_HMS, to_the_second. simpl.
  intros [= Y1 Y2 Y3 Y4 M1 M2 D1 D2 h1 h2 m1 m2 s1 s2].
  assert (year t1 = year t2) as ->
    by (apply pad4_inj; [lia | lia | unfold pad4, pad2; congruence]).
  assert (month t1 = month t2) as ->
    by (apply pad2_inj; [lia | lia | unfold pad2; congruence]).
  assert (day t1 = day t2) as ->
    by (apply pad2_inj; [lia | lia | unfold pad2; congruence]).
  assert (hour t1 = hour t2) as ->
    by (apply pad2_inj; [lia | lia | unfold pad2; congruence]).
  assert (minute t1 = minute t2) as ->
    by (apply pad2_inj; [lia | lia | unfold pad2; congruence]).
  assert (second t1 = second t2) as ->
    by (apply pad2_inj; [lia | lia | unfold pad2; congruence]).
  reflexivity.
Qed.

Lemma pieces_no_slash (s : string) : no_slash s = true -> pieces s = [s].
Proof.
  unfold no_slash. induction s as [|c s IH]; simpl; [done|].
  intros H. apply andb_true_iff in H as [Hc Hs].
  apply negb_true_iff in Hc. rewrite Hc, (IH Hs). done.
Qed.

Lemma div_single (dir : path) (s : string) :
  is_absolute s = false -> no_slash s = true -> real_part s = true ->
  div dir s = dir ++ [s].
Proof.
  intros Ha Hs Hr. unfold div, Path. rewrite Ha, (pieces_no_slash s Hs).
  assert (root s = []) as ->.
  { unfold root. destruct s as [|c s]; [done|]. simpl in *. by rewrite Ha. }
  simpl. by rewrite Hr.
Qed.

Lemma no_slash_timestamp (t : datetime) (before after : string) :
  no_slash before = true -> no_slash after = true ->
  no_slash (before +:+ strftime_Ymd_HMS t +:+ after) = true.
Proof.
  assert (Happ : forall a b, no_slash (a +:+ b) = no_slash a && no_slash b).
  { unfold no_slash. induction a as [|c a IH]; intros b; simpl; [done|].
    rewrite IH. by rewrite andb_assoc. }
  intros Hb Ha. rewrite !Happ, Hb, Ha.
  unfold strftime_Ymd_HMS, pad4, pad2, no_slash. simpl.
  by rewrite !digit_not_slash.
Qed.

Lemma default_file_name (p : video_provider) (t : datetime) :
  match p with
  | AIMLAPIVideoProvider self => AIMLAPI.default_file_path self t
  | PollinationsVideoProvider self => Pollinations.default_file_path self t
  end
  = output_dir p ++ [provider_name p +:+ "_" +:+ strftime_Ymd_HMS t +:+ ".mp4"].
Proof.
  destruct p as [self|self]; simpl;
    unfold AIMLAPI.default_file_path, Pollinations.default_file_path.
  - change ("aimlapi_" +:+ strftime_Ymd_HMS t +:+ ".mp4")
      with (AIMLAPI.name +:+ "_" +:+ strftime_Ymd_HMS t +:+ ".mp4").
    apply div_single; [done | | done].
    by apply (no_slash_timestamp t "aimlapi_" ".mp4").
  - change ("pollinations_" +:+ strftime_Ymd_HMS t +:+ ".mp4")
      with (Pollinations.name +:+ "_" +:+ strftime_Ymd_HMS t +:+ ".mp4").
    apply div_single; [done | | done].
    by apply (no_slash_timestamp t "pollinations_" ".mp4").
Qed.

Lemma success_default_path (p : video_provider) (E : env) (prompt : string) (kw : kwargs)
    (w w' : world) (r : GenerationResult) :
  generate p E prompt kw w = (Ret r, w') -> success r = true ->
  truthy_str (kw_output_path kw) = false ->
  file_path r
  = Some (output_dir p ++ [provider_name p +:+ "_" +:+ strftime_Ymd_HMS (utc_now E) +:+ ".mp4"]).
Proof.
  intros H Hs Hno. rewrite <- default_file_name.
  destruct p as [self|self]; unfold generate in H.
  - apply aimlapi_generate_ends in H. inversion H; subst; clear H;
      try not_caught; try discriminate Hs.
    repeat match goal with x := _ |- _ => subst x end.
    cbn [file_path]. f_equal. unfold AIMLAPI.resolve_file_path. rewrite Hno.
    by destruct (kw_output_path kw).
  - apply pollinations_generate_ends in H. inversion H; subst; clear H;
      try not_caught; try discriminate Hs.
    repeat match goal with x := _ |- _ => subst x end.
    cbn [file_path]. f_equal. unfold Pollinations.resolve_file_path. rewrite Hno.
    by destruct (kw_output_path kw).
Qed.

(** The C5 claim has two calls without [output_path] always write to
    distinct paths.  Two calls half a second apart, within the same UTC
    second, get the same default path: the second call overwrites the
    file of the first. *)
Lemma same_second_same_path :
  let P := AIMLAPIVideoProvider Scenario.aimlapi in
  let E1 := Scenario.at_time Scenario.happy Scenario.noon in
  let E2 := Scenario.at_time (Scenario.with_download Scenario.happy (Ret [Byte.x01]))
              Scenario.noon_and_a_half in
  utc_now E1 <> utc_now E2
  /\ exists r1 w1 r2 w2 file,
       generate P E1 "a cat" no_kwargs Scenario.empty_world = (Ret r1, w1)
       /\ generate P E2 "a cat" no_kwargs w1 = (Ret r2, w2)
       /\ success r1 = true /\ success r2 = true
       /\ file_path r1 = Some file /\ file_path r2 = Some file
       /\ data r1 = Some Scenario.twelve_bytes
       /\ fs w2 !! file = Some (File [Byte.x01]).
Proof.
  split; [discriminate|].
  eexists _, _, _, _, _. split; [reflexivity|]. split; [reflexivity|].
  repeat (split; [reflexivity|]). by vm_compute.
Qed.

(** C5, amended: without an explicit [output_path] the file of a
    successful call is
    [output_dir / "<provider name>_<YYYYmmdd_HHMMSS>.mp4"], with the UTC
    time of the call printed to the second; two such calls of a provider
    get distinct paths whenever their clock readings differ in the part
    printed, that is, by at least the second. *)
Theorem default_paths_distinct (p : video_provider) (E1 E2 : env) (prompt1 prompt2 : string)
    (kw1 kw2 : kwargs) (w1 w1' w2 w2' : world) (r1 r2 : GenerationResult) :
  truthy_str (kw_output_path kw1) = false ->
  truthy_str (kw_output_path kw2) = false ->
  valid_datetime (utc_now E1) -> valid_datetime (utc_now E2) ->
  to_the_second (utc_now E1) <> to_the_second (utc_now E2) ->
  generate p E1 prompt1 kw1 w1 = (Ret r1, w1') -> success r1 = true ->
  generate p E2 prompt2 kw2 w2 = (Ret r2, w2') -> success r2 = true ->
  file_path r1
  = Some (output_dir p
          ++ [provider_name p +:+ "_" +:+ strftime_Ymd_HMS (utc_now E1) +:+ ".mp4"])
  /\ file_path r2
     = Some (output_dir p
             ++ [provider_name p +:+ "_" +:+ strftime_Ymd_HMS (utc_now E2) +:+ ".mp4"])
  /\ file_path r1 <> file_path r2.
Proof.
  intros Hno1 Hno2 Hv1 Hv2 Hdiff H1 Hs1 H2 Hs2.
  pose proof (success_default_path p E1 prompt1 kw1 w1 w1' r1 H1 Hs1 Hno1) as Hp1.
  pose proof (success_default_path p E2 prompt2 kw2 w2 w2' r2 H2 Hs2 Hno2) as Hp2.
  split; [exact Hp1|]. split; [exact Hp2|].
  rewrite Hp1, Hp2. intros [= Heq]. apply Hdiff.
  apply app_inv_head in Heq. injection Heq as Heq.
  apply strftime_inj; [done | done |].
  destruct p;
    cbv [provider_name AIMLAPI.name Pollinations.name strftime_Ymd_HMS pad4 pad2
         String.append] in Heq |- *;
    congruence.
Qed.

Lemma default_paths_distinct_witness :
  let P := PollinationsVideoProvider Scenario.pollinations in
  let E1 := Scenario.at_time Scenario.happy Scenario.noon in
  let E2 := Scenario.at_time Scenario.happy (Datetime 2026 11 3 12 0 1 0) in
  truthy_str (kw_output_path no_kwargs) = false
  /\ valid_datetime (utc_now E1) /\ valid_datetime (utc_now E2)
  /\ to_the_second (utc_now E1) <> to_the_second (utc_now E2)
  /\ exists r1 w1 r2 w2,
       generate P E1 "a cat" no_kwargs Scenario.empty_world = (Ret r1, w1)
       /\ success r1 = true
       /\ generate P E2 "a cat" no_kwargs Scenario.empty_world = (Ret r2, w2)
       /\ success r2 = true
       /\ file_path r1 = Some ["exports"; "pollinations_20261103_120000.mp4"]
       /\ file_path r2 = Some ["exports"; "pollinations_20261103_120001.mp4"]
       /\ file_path r1 <> file_path r2.
Proof.
  assert (Hv1 : valid_datetime Scenario.noon) by (unfold valid_datetime; simpl; lia).
  assert (Hv2 : valid_datetime (Datetime 2026 11 3 12 0 1 0))
    by (unfold valid_datetime; simpl; lia).
  assert (Hd : to_the_second Scenario.noon <> to_the_second (Datetime 2026 11 3 12 0 1 0))
    by discriminate.
  split; [reflexivity|]. split; [exact Hv1|]. split; [exact Hv2|]. split; [exact Hd|].
  eexists _, _, _, _. split; [run|]. split; [reflexivity|].
  split; [run|]. split; [reflexivity|].
  eapply (default_paths_distinct (PollinationsVideoProvider Scenario.pollinations)
            (Scenario.at_time Scenario.happy Scenario.noon)
            (Scenario.at_time Scenario.happy (Datetime 2026 11 3 12 0 1 0))
            "a cat" "a cat" no_kwargs no_kwargs Scenario.empty_world _
            Scenario.empty_world);
    [reflexivity | reflexivity | exact Hv1 | exact Hv2 | exact Hd
    | run | reflexivity | run | reflexivity].
Defined.

(** * Further properties of the two providers *)

(** ** What a call leaves on the disk *)

Lemma ensure_dir_keeps E q w o w' :
  ensure_dir E q w = (o, w') ->
  forall k n, fs w !! k = Some n -> fs w' !! k = Some n.
Proof.
  unfold ensure_dir. intros H k n Hk.
  destruct (is_dir (fs w) q); [by simplify_eq|].
  destruct (fs w !! q) as [m|] eqn:Hq; [by simplify_eq|].
  destruct (mkdir_fault E q); simplify_eq; [done|]. simpl.
  rewrite lookup_insert_ne; [done|]. intros ->. congruence.
Qed.

Lemma ensure_dirs_keeps E qs : forall w o w',
  ensure_dirs E qs w = (o, w') ->
  forall k n, fs w !! k = Some n -> fs w' !! k = Some n.
Proof.
  induction qs as [|q qs IH]; intros w o w' H k n Hk; simpl in H.
  - apply mret_inv in H as [_ ->]. done.
  - apply bind_inv in H as [([] & w1 & H1 & H2) | (e & H1 & _)].
    + eapply IH; [exact H2|]. eapply ensure_dir_keeps; eauto.
    + eapply ensure_dir_keeps; eauto.
Qed.

Lemma write_bytes_frame E p content w o w' :
  write_bytes E p content w = (o, w') ->
  forall k, k <> p -> fs w' !! k = fs w !! k.
Proof.
  unfold write_bytes. intros H k Hk.
  destruct (is_dir (fs w) p); [by simplify_eq|].
  destruct (negb (is_dir (fs w) (parent p)));
    [by destruct (fs w !! parent p) as [[|c]|]; simplify_eq|].
  destruct (ends_in_dotdot p); [by simplify_eq|].
  destruct (disk_fault E p) as [[e|e n]|]; simplify_eq; simpl;
    try done; by rewrite lookup_insert_ne.
Qed.

Lemma persist_frame E file video_data w o w' :
  persist E file video_data w = (o, w') ->
  forall k n, k <> file -> fs w !! k = Some n -> fs w' !! k = Some n.
Proof.
  unfold persist. intros H k n Hne Hk.
  apply bind_inv in H as [([] & w1 & H1 & H2) | (e & H1 & _)].
  - rewrite (write_bytes_frame _ _ _ _ _ _ H2 k Hne).
    eapply ensure_dirs_keeps; eauto.
  - eapply ensure_dirs_keeps; eauto.
Qed.

Lemma prefixes_not_nil (p q : path) : In q (prefixes p) -> q <> [].
Proof.
  destruct p as [|c p]; simpl; [done|].
  intros [<-|Hin]; [done|]. apply in_map_iff in Hin as (x & <- & _). done.
Qed.

Lemma prefixes_self (p : path) : p <> [] -> In p (prefixes p).
Proof.
  induction p as [|c p IH]; [done|]. intros _. simpl.
  destruct p as [|c' p]; [by left|]. right. apply in_map. by apply IH.
Qed.

(** A regular file in the place of an ancestor directory stops [persist]
    before anything is written. *)
Lemma persist_blocked E file video_data w o w' q old :
  In q (prefixes (parent file)) -> q <> ["/"] -> fs w !! q = Some (File old) ->
  persist E file video_data w = (o, w') ->
  exists e, o = Raise e.
Proof.
  unfold persist. intros Hin Hroot Hq H.
  apply bind_inv in H as [([] & w1 & H1 & H2) | (e & H1 & ->)]; [|eauto].
  exfalso. unfold mkdir_parents in H1.
  pose proof (ensure_dirs_keeps _ _ _ _ _ H1 q _ Hq) as Hkept.
  apply ensure_dirs_run in H1 as (_ & _ & Hdirs & _).
  specialize (Hdirs eq_refl q Hin). unfold is_dir in Hdirs. by rewrite Hkept in Hdirs.
Qed.

(** A write that succeeds found the parent of the file a directory. *)
Lemma persist_parent_dir E file video_data w w' :
  persist E file video_data w = (Ret tt, w') ->
  is_dir (fs w') (parent file) = true.
Proof.
  unfold persist. intros H.
  apply bind_inv in H as [([] & w1 & _ & H2) | (e & _ & ?)]; [|done].
  unfold write_bytes in H2.
  destruct (is_dir (fs w1) file) eqn:Hfile; [by simplify_eq|].
  destruct (is_dir (fs w1) (parent file)) eqn:Hpar; simpl in H2;
    [|by destruct (fs w1 !! parent file) as [[|c]|]; simplify_eq].
  destruct (ends_in_dotdot file); [by simplify_eq|].
  destruct (disk_fault E file) as [[e|e n]|]; simplify_eq. simpl.
  rewrite is_dir_insert_file; [done|]. intros Heq. congruence.
Qed.

(** Neither step of [persist] removes an entry or turns a directory into
    a file or a file into a directory. *)
Lemma same_kind_refl (n : node) : same_kind n (Some n).
Proof. destruct n; simpl; eauto. Qed.

Lemma persist_keeps_kind E file video_data w o w' k n :
  persist E file video_data w = (o, w') ->
  fs w !! k = Some n ->
  same_kind n (fs w' !! k).
Proof.
  intros H Hk. destruct (decide (k = file)) as [->|Hne].
  2: { rewrite (persist_frame _ _ _ _ _ _ H k n Hne Hk). apply same_kind_refl. }
  unfold persist in H.
  apply bind_inv in H as [([] & w1 & H1 & H2) | (e & H1 & _)].
  2: { rewrite (ensure_dirs_keeps _ _ _ _ _ H1 file n Hk). apply same_kind_refl. }
  pose proof (ensure_dirs_keeps _ _ _ _ _ H1 file n Hk) as Hk1.
  unfold write_bytes in H2.
  destruct (is_dir (fs w1) file) eqn:Hfile.
  { simplify_eq. rewrite Hk1. apply same_kind_refl. }
  destruct (negb (is_dir (fs w1) (parent file))).
  { destruct (fs w1 !! parent file) as [[|c]|]; simplify_eq;
      rewrite Hk1; apply same_kind_refl. }
  destruct (ends_in_dotdot file).
  { simplify_eq. rewrite Hk1. apply same_kind_refl. }
  assert (Hn : exists c, n = File c).
  { unfold is_dir in Hfile. rewrite Hk1 in Hfile. destruct n; [done|eauto]. }
  destruct Hn as [c ->].
  destruct (disk_fault E file) as [[e|e m]|]; simplify_eq; simpl;
    rewrite ?lookup_insert_eq; eauto.
Qed.

(** How a call that reports success ended. *)
Lemma success_inv (p : video_provider) (E : env) (prompt : string) (kw : kwargs)
    (w w' : world) (r : GenerationResult) :
  generate p E prompt kw w = (Ret r, w') -> success r = true ->
  exists video_data new,
    file_path r = Some (target_path p E kw)
    /\ data r = Some video_data
    /\ persist E (target_path p E kw) video_data (sent w new) = (Ret tt, w').
Proof.
  destruct p as [self|self]; unfold generate; intros H Hs.
  - apply aimlapi_generate_ends in H. inversion H; subst; clear H;
      try not_caught; try discriminate Hs.
    eexists _, _. split_and!; [reflexivity | reflexivity | eassumption].
  - apply pollinations_generate_ends in H. inversion H; subst; clear H;
      try not_caught; try discriminate Hs.
    eexists _, _. split_and!; [reflexivity | reflexivity | eassumption].
Qed.



(** X14: when an ancestor directory of the target path exists as a
    regular file, the call cannot report success: creating the
    directories fails and a returned result has [success = false]. *)
Theorem ancestor_file_blocks (p : video_provider) (E : env) (prompt : string)
    (kw : kwargs) (w w' : world) (r : GenerationResult) (q : path) (old : bytes) :
  In q (prefixes (parent (target_path p E kw))) ->
  q <> ["/"] ->
  fs w !! q = Some (File old) ->
  generate p E prompt kw w = (Ret r, w') ->
  success r = false.
Proof.
  intros Hin Hroot Hq H.
  destruct (success r) eqn:Hs; [|done].
  exfalso. destruct (success_inv p E prompt kw w w' r H Hs) as (d & new & _ & _ & Hp).
  destruct (persist_blocked E _ d (sent w new) _ _ q old Hin Hroot Hq Hp) as [e He].
  discriminate He.
Qed.

Lemma ancestor_file_blocks_witness :
  exists r w',
    In ["exports"]
       (prefixes (parent (target_path (PollinationsVideoProvider Scenario.pollinations)
                            Scenario.happy no_kwargs)))
    /\ ["exports"] <> ["/"]
    /\ fs Disk.exports_is_a_file !! ["exports"] = Some (File [Byte.x00])
    /\ generate (PollinationsVideoProvider Scenario.pollinations) Scenario.happy "a cat"
         no_kwargs Disk.exports_is_a_file = (Ret r, w')
    /\ success r = false.
Proof.
  eexists _, _.
  assert (Hin : In ["exports"]
       (prefixes (parent (target_path (PollinationsVideoProvider Scenario.pollinations)
                            Scenario.happy no_kwargs)))) by (vm_compute; auto).
  assert (Hroot : ["exports"] <> ["/"]) by discriminate.
  split; [exact Hin|]. split; [exact Hroot|]. split; [reflexivity|].
  split; [run|].
  eapply (ancestor_file_blocks (PollinationsVideoProvider Scenario.pollinations)
            Scenario.happy "a cat" no_kwargs Disk.exports_is_a_file _ _ ["exports"]
            [Byte.x00] Hin Hroot); [reflexivity | run].
Defined.

(** X12: with a non-empty [output_path], a successful call writes the
    download to [Path(output_path)], whatever the clock and the output
    directory of the settings are, and reports that path. *)
Theorem explicit_output_path (p : video_provider) (E : env) (prompt : string)
    (kw : kwargs) (w w' : world) (r : GenerationResult) (s : string) :
  kw_output_path kw = Some s -> s <> "" ->
  generate p E prompt kw w = (Ret r, w') -> success r = true ->
  file_path r = Some (Path s)
  /\ exists video_data, data r = Some video_data /\ fs w' !! Path s = Some (File video_data).
Proof.
  intros Hs Hne H Hok.
  destruct (success_inv p E prompt kw w w' r H Hok) as (d & new & Hf & Hd & Hp).
  assert (Ht : target_path p E kw = Path s).
  { destruct p as [self|self]; simpl;
      unfold AIMLAPI.resolve_file_path, Pollinations.resolve_file_path;
      rewrite Hs; simpl; by apply String.eqb_neq in Hne as ->. }
  rewrite Ht in Hf, Hp. split; [exact Hf|]. exists d. split; [exact Hd|].
  apply persist_run in Hp as (_ & Hfile & _). by destruct (Hfile eq_refl).
Qed.

Lemma explicit_output_path_witness :
  let kw := Kwargs None None None (Some "/tmp/out/./cat.mp4") None in
  exists r w',
    kw_output_path kw = Some "/tmp/out/./cat.mp4"
    /\ "/tmp/out/./cat.mp4" <> ""
    /\ generate (AIMLAPIVideoProvider Scenario.aimlapi) Scenario.happy "a cat" kw
         Scenario.empty_world = (Ret r, w')
    /\ success r = true
    /\ file_path r = Some ["/"; "tmp"; "out"; "cat.mp4"]
    /\ exists video_data,
         data r = Some video_data
         /\ fs w' !! ["/"; "tmp"; "out"; "cat.mp4"] = Some (File video_data).
Proof.
  eexists _, _. split; [reflexivity|]. split; [discriminate|].
  split; [reflexivity|]. split; [reflexivity|].
  eapply (explicit_output_path (AIMLAPIVideoProvider Scenario.aimlapi) Scenario.happy
            "a cat" (Kwargs None None None (Some "/tmp/out/./cat.mp4") None)
            Scenario.empty_world _ _ "/tmp/out/./cat.mp4");
    [reflexivity | discriminate | reflexivity | reflexivity].
Defined.

(** X15: without an [output_path], a successful call puts its file
    directly into the output directory of the settings, which is a
    directory afterwards. *)
Theorem default_file_in_output_dir (p : video_provider) (E : env) (prompt : string)
    (kw : kwargs) (w w' : world) (r : GenerationResult) :
  truthy_str (kw_output_path kw) = false ->
  generate p E prompt kw w = (Ret r, w') -> success r = true ->
  exists file,
    file_path r = Some file
    /\ parent file = output_dir p
    /\ is_dir (fs w') (output_dir p) = true
    /\ is_Some (fs w' !! file).
Proof.
  intros Hno H Hok.
  destruct (success_inv p E prompt kw w w' r H Hok) as (d & new & Hf & Hd & Hp).
  assert (Ht : target_path p E kw
               = output_dir p
                 ++ [provider_name p +:+ "_" +:+ strftime_Ymd_HMS (utc_now E) +:+ ".mp4"]).
  { rewrite <- default_file_name.
    destruct p as [self|self]; simpl;
      unfold AIMLAPI.resolve_file_path, Pollinations.resolve_file_path;
      rewrite Hno; by destruct (kw_output_path kw). }
  assert (Hpar : parent (target_path p E kw) = output_dir p).
  { rewrite Ht. unfold parent. rewrite removelast_last.
    destruct (is_root _) eqn:Hroot; [|done].
    exfalso. apply bool_decide_eq_true in Hroot.
    destruct (output_dir p) as [|c [|c' l]]; destruct Hroot as [Hr|Hr];
      cbv [provider_name AIMLAPI.name Pollinations.name strftime_Ymd_HMS pad4 pad2
           String.append] in Hr; destruct p; simplify_eq. }
  exists (target_path p E kw). split; [exact Hf|]. split; [exact Hpar|].
  split.
  - rewrite <- Hpar. by eapply persist_parent_dir.
  - apply persist_run in Hp as (_ & Hfile & _). destruct (Hfile eq_refl) as [Hlook _].
    by rewrite Hlook.
Qed.

Lemma default_file_in_output_dir_witness :
  exists r w',
    truthy_str (kw_output_path no_kwargs) = false
    /\ generate (AIMLAPIVideoProvider Scenario.aimlapi) Scenario.happy "a cat" no_kwargs
         Scenario.empty_world = (Ret r, w')
    /\ success r = true
    /\ exists file,
         file_path r = Some file
         /\ parent file = output_dir (AIMLAPIVideoProvider Scenario.aimlapi)
         /\ is_dir (fs w') (output_dir (AIMLAPIVideoProvider Scenario.aimlapi)) = true
         /\ is_Some (fs w' !! file).
Proof.
  eexists _, _. split; [reflexivity|]. split; [reflexivity|]. split; [reflexivity|].
  exact (default_file_in_output_dir (AIMLAPIVideoProvider Scenario.aimlapi) Scenario.happy
           "a cat" no_kwargs Scenario.empty_world _ _ eq_refl eq_refl eq_refl).
Defined.

(** ** The requests of an AIMLAPI call *)

(** X1: a call of [AIMLAPIVideoProvider.generate] submits once, then polls
    once for the chosen id on the same endpoint, then downloads once, in
    that order and with no retry: its requests are a prefix of
    submit, wait, download.  A successful call made all three, and the
    URL it downloaded is what the extraction rule returned. *)
Theorem aimlapi_request_order (self : AIMLAPI.provider_state) (E : env) (prompt : string)
    (kw : kwargs) (w w' : world) (o : outcome GenerationResult) :
  AIMLAPI.generate self E prompt kw w = (o, w') ->
  let submit := SubmitGeneration "/v2/generate/video" (aimlapi_payload self prompt kw) in
  (requests_since w w' = [submit]
   \/ (exists id, requests_since w w' = [submit; WaitForCompletion "/v2/generate/video" id])
   \/ (exists id url,
         requests_since w w'
         = [submit; WaitForCompletion "/v2/generate/video" id; DownloadFile url]))
  /\ (forall r, o = Ret r -> success r = true ->
      exists result status url,
        client_submit_generation E "/v2/generate/video" (aimlapi_payload self prompt kw)
        = Ret result
        /\ client_wait_for_completion E "/v2/generate/video"
             (AIMLAPI.pick_generation_id result) = Ret status
        /\ _extract_video_url status = Ret url
        /\ requests_since w w'
           = [submit;
              WaitForCompletion "/v2/generate/video" (AIMLAPI.pick_generation_id result);
              DownloadFile url]).
Proof.
  intros H submit. subst submit. apply aimlapi_generate_ends in H.
  inversion H; subst; clear H;
    repeat match goal with x := _ |- _ => subst x end;
    try match goal with
      | Hp : persist _ _ _ _ = _ |- _ => apply persist_run in Hp as (Hw & _ & _)
      end.
  all: split;
    [ first
        [ left; by apply requests_since_app
        | right; left; eexists; by apply requests_since_app
        | right; right; eexists _, _; apply requests_since_app;
          first [reflexivity | exact Hw] ]
    | intros r' Hr' Hs; try not_caught; simplify_eq; simpl in *; try done ].
  eexists _, _, _. split_and!; try eassumption. by apply requests_since_app.
Qed.

Lemma aimlapi_request_order_witness :
  exists o w',
    AIMLAPI.generate Scenario.aimlapi Scenario.happy "a cat" no_kwargs Scenario.empty_world
    = (o, w')
    /\ exists id url,
         requests_since Scenario.empty_world w'
         = [SubmitGeneration "/v2/generate/video"
              (aimlapi_payload Scenario.aimlapi "a cat" no_kwargs);
            WaitForCompletion "/v2/generate/video" id; DownloadFile url].
Proof.
  eexists _, _. split; [reflexivity|].
  destruct (proj1 (aimlapi_request_order Scenario.aimlapi Scenario.happy "a cat" no_kwargs
                     Scenario.empty_world _ _ eq_refl)) as [H|[[id H]|H]].
  - discriminate H.
  - discriminate H.
  - exact H.
Defined.

(** ** Exceptions that leave [generate] *)

(** X2: an exception leaves [generate] in two ways only.  One raised
    inside the [try] block leaves it only if it does not derive from
    [Exception] and was raised by the environment (a remote call or the
    disk): the errors of the code itself, of the extraction rule and of
    the path checks are always turned into a failed result.  The other
    way is open in [PollinationsVideoProvider.generate] alone, whose
    first steps, quoting the prompt and printing the duration, precede
    the [try] block: an exception of either leaves the call, whatever
    its class, before any request is made and with the disk untouched. *)
Theorem exceptions_that_escape (p : video_provider) (E : env) (prompt : string)
    (kw : kwargs) (w w' : world) (e : exn) :
  generate p E prompt kw w = (Raise e, w') ->
  (exc_is_Exception e = false /\ raises E e)
  \/ (exists self,
        p = PollinationsVideoProvider self
        /\ (urllib_quote E prompt = Raise e
            \/ (exists q, urllib_quote E prompt = Ret q) /\ duration_text E kw = Raise e)
        /\ w' = w).
Proof.
  assert (Hc : forall provider_name e0,
             caught provider_name e0 = Raise e -> e0 = e /\ exc_is_Exception e = false).
  { intros provider_name e0. unfold caught. destruct (exc_is_Exception e0) eqn:He0; [done|].
    intros [= <-]. done. }
  destruct p as [self|self]; unfold generate; intros H.
  - left. apply aimlapi_generate_ends in H. inversion H; subst; clear H;
      match goal with Hx : caught _ _ = Raise _ |- _ => apply Hc in Hx as [-> Hf] end;
      (split; [exact Hf|]); eauto using raises.
    + match goal with Hx : _extract_video_url _ = Raise _ |- _ =>
        apply extract_raises in Hx as [Ht _] end. congruence.
    + match goal with Hp : persist _ _ _ _ = _ |- _ =>
        apply persist_run in Hp as (_ & _ & Hexc) end.
      destruct (Hexc e eq_refl) as [[Ht _]|Hr]; [congruence | exact Hr].
  - apply pollinations_generate_ends in H. inversion H; subst; clear H.
    1, 2: right; exists self; split; [reflexivity|]; split; [eauto | reflexivity].
    all: left;
      match goal with Hx : caught _ _ = Raise _ |- _ => apply Hc in Hx as [? Hf] end;
      subst; try discriminate Hf; (split; [exact Hf|]); eauto using raises.
    match goal with Hp : persist _ _ _ _ = _ |- _ =>
      apply persist_run in Hp as (_ & _ & Hexc) end.
    destruct (Hexc e eq_refl) as [[Ht _]|Hr]; [congruence | exact Hr].
Qed.

Lemma exceptions_that_escape_witness :
  let E := Scenario.with_quote Scenario.happy (Raise Scenario.UnicodeEncodeError) in
  let p := PollinationsVideoProvider Scenario.pollinations in
  exists w',
    generate p E "a cat" no_kwargs Scenario.empty_world = (Raise Scenario.UnicodeEncodeError, w')
    /\ ((exc_is_Exception Scenario.UnicodeEncodeError = false
         /\ raises E Scenario.UnicodeEncodeError)
        \/ (exists self,
              p = PollinationsVideoProvider self
              /\ (urllib_quote E "a cat" = Raise Scenario.UnicodeEncodeError
                  \/ (exists q, urllib_quote E "a cat" = Ret q)
                     /\ duration_text E no_kwargs = Raise Scenario.UnicodeEncodeError)
              /\ w' = Scenario.empty_world)).
Proof.
  eexists. split; [reflexivity|].
  exact (exceptions_that_escape (PollinationsVideoProvider Scenario.pollinations)
           (Scenario.with_quote Scenario.happy (Raise Scenario.UnicodeEncodeError))
           "a cat" no_kwargs Scenario.empty_world _ Scenario.UnicodeEncodeError eq_refl).
Defined.

(** ** More on the extraction rule *)

(** X3: [_extract_video_url] raises in exactly one situation: the status
    has neither ["url"] nor ["video_url"] and its ["output"] is a
    non-empty list whose first element is neither a string nor an object.
    On every other status it returns a value (possibly [None]). *)
Theorem extract_raises_iff (status : dict) :
  (exists e, _extract_video_url status = Raise e)
  <-> (lookup_key "url" status = None
       /\ lookup_key "video_url" status = None
       /\ exists first rest,
            dict_get status "output" = PList (first :: rest)
            /\ isinstance_str first = false /\ isinstance_dict first = false).
Proof.
  unfold _extract_video_url, contains, getitem. split.
  - intros [e H].
    destruct (lookup_key "url" status); [done|].
    destruct (lookup_key "video_url" status); [done|].
    destruct (dict_get status "output") as [| | | |[|first rest]|]; simpl in H; try done.
    split_and!; try done. exists first, rest.
    destruct first; simpl in *; try done.
  - intros (-> & -> & first & rest & -> & Hs & Hd). simpl. rewrite Hs.
    destruct first; simpl in *; try done; eauto.
Qed.

(** X4: a top-level ["url"] decides the call by being present, not by
    being usable.  When the status has the key with a falsy value (null,
    empty), the call fails with "No video URL in response" and downloads
    nothing, whatever ["video_url"] and ["output"] hold; when the value is
    truthy, that value is what is downloaded. *)
Theorem top_level_url_decides (self : AIMLAPI.provider_state) (E : env) (prompt : string)
    (kw : kwargs) (w w' : world) (o : outcome GenerationResult)
    (result status : dict) (u : pyval) :
  let payload := aimlapi_payload self prompt kw in
  let id := AIMLAPI.pick_generation_id result in
  client_submit_generation E "/v2/generate/video" payload = Ret result ->
  truthy id = true ->
  client_wait_for_completion E "/v2/generate/video" id = Ret status ->
  lookup_key "url" status = Some u ->
  AIMLAPI.generate self E prompt kw w = (o, w') ->
  (truthy u = false ->
     o = Ret (mkGenerationResult false "aimlapi" "video" None None (Some id)
                (Some "No video URL in response") [])
     /\ requests_since w w'
        = [SubmitGeneration "/v2/generate/video" payload;
           WaitForCompletion "/v2/generate/video" id]
     /\ fs w' = fs w)
  /\ (truthy u = true ->
      requests_since w w'
      = [SubmitGeneration "/v2/generate/video" payload;
         WaitForCompletion "/v2/generate/video" id; DownloadFile u]).
Proof.
  intros payload id Hsubmit Hid Hwait Hurl H. subst payload id.
  assert (Hx : _extract_video_url status = Ret u).
  { unfold _extract_video_url, contains, getitem. by rewrite Hurl. }
  apply aimlapi_generate_ends in H.
  split; intros Hu; inversion H; subst; clear H;
    repeat match goal with x := _ |- _ => subst x end;
    rewrite ?Hsubmit in *; simplify_eq;
    rewrite ?Hwait in *; simplify_eq;
    rewrite ?Hx in *; simplify_eq; try congruence;
    try match goal with
      | Hp : persist _ _ _ _ = _ |- _ => apply persist_run in Hp as (Hw & _ & _)
      end.
  - split_and!; [done | by apply requests_since_app | done].
  - by apply requests_since_app.
  - by apply requests_since_app.
  - by apply requests_since_app.
Qed.

Lemma top_level_url_decides_witness :
  let status := [("url", PNone); ("video_url", PStr "http://x/file.mp4")] in
  let E := Scenario.with_status Scenario.happy (Ret status) in
  let payload := aimlapi_payload Scenario.aimlapi "a cat" no_kwargs in
  exists o w',
    client_submit_generation E "/v2/generate/video" payload = Ret [("id", PStr "abc123")]
    /\ truthy (AIMLAPI.pick_generation_id [("id", PStr "abc123")]) = true
    /\ client_wait_for_completion E "/v2/generate/video"
         (AIMLAPI.pick_generation_id [("id", PStr "abc123")]) = Ret status
    /\ lookup_key "url" status = Some PNone
    /\ AIMLAPI.generate Scenario.aimlapi E "a cat" no_kwargs Scenario.empty_world = (o, w')
    /\ truthy PNone = false
    /\ o = Ret (mkGenerationResult false "aimlapi" "video" None None (Some (PStr "abc123"))
                  (Some "No video URL in response") [])
    /\ fs w' = fs Scenario.empty_world.
Proof.
  eexists _, _. split; [reflexivity|]. split; [reflexivity|]. split; [reflexivity|].
  split; [reflexivity|]. split; [reflexivity|]. split; [reflexivity|].
  destruct (proj1 (top_level_url_decides Scenario.aimlapi
                     (Scenario.with_status Scenario.happy
                        (Ret [("url", PNone); ("video_url", PStr "http://x/file.mp4")]))
                     "a cat" no_kwargs Scenario.empty_world _ _
                     [("id", PStr "abc123")]
                     [("url", PNone); ("video_url", PStr "http://x/file.mp4")] PNone
                     eq_refl eq_refl eq_refl eq_refl eq_refl) eq_refl) as (Ho & _ & Hfs).
  split; [exact Ho | exact Hfs].
Defined.

(** ** What a result says *)

(** X5: a failed AIMLAPI result carries a [generation_id] only when the
    status held no usable URL: then the error is "No video URL in
    response", the id is the one that was polled, and nothing was
    downloaded.  Failures reported from an exception carry no id, even
    when one had been obtained. *)
Theorem failed_result_with_id (self : AIMLAPI.provider_state) (E : env) (prompt : string)
    (kw : kwargs) (w w' : world) (r : GenerationResult) (id : pyval) :
  AIMLAPI.generate self E prompt kw w = (Ret r, w') ->
  success r = false ->
  generation_id r = Some id ->
  error r = Some "No video URL in response"
  /\ requests_since w w'
     = [SubmitGeneration "/v2/generate/video" (aimlapi_payload self prompt kw);
        WaitForCompletion "/v2/generate/video" id].
Proof.
  intros H Hs Hid. apply aimlapi_generate_ends in H.
  inversion H; subst; clear H;
    repeat match goal with x := _ |- _ => subst x end;
    try discriminate Hs; try discriminate Hid;
    try match goal with
      | Hc : caught _ ?x = Ret _ |- _ =>
          unfold caught in Hc; destruct (exc_is_Exception x); by simplify_eq
      end.
  simpl in Hid. simplify_eq. split; [done|]. by apply requests_since_app.
Qed.

Lemma failed_result_with_id_witness :
  let E := Scenario.with_status Scenario.happy (Ret [("status", PStr "succeeded")]) in
  exists r w',
    AIMLAPI.generate Scenario.aimlapi E "a cat" no_kwargs Scenario.empty_world = (Ret r, w')
    /\ success r = false
    /\ generation_id r = Some (PStr "abc123")
    /\ error r = Some "No video URL in response"
    /\ requests_since Scenario.empty_world w'
       = [SubmitGeneration "/v2/generate/video"
            (aimlapi_payload Scenario.aimlapi "a cat" no_kwargs);
          WaitForCompletion "/v2/generate/video" (PStr "abc123")].
Proof.
  eexists _, _. split; [reflexivity|]. split; [reflexivity|]. split; [reflexivity|].
  exact (failed_result_with_id Scenario.aimlapi
           (Scenario.with_status Scenario.happy (Ret [("status", PStr "succeeded")]))
           "a cat" no_kwargs Scenario.empty_world _ _ (PStr "abc123")
           eq_refl eq_refl eq_refl).
Defined.

(** X6: every result names the provider that produced it and the content
    type "video"; a failed result has empty metadata. *)
Theorem result_labels (p : video_provider) (E : env) (prompt : string) (kw : kwargs)
    (w w' : world) (r : GenerationResult) :
  generate p E prompt kw w = (Ret r, w') ->
  provider r = provider_name p
  /\ content_type r = "video"
  /\ (success r = false -> metadata r = []).
Proof.
  destruct p as [self|self]; unfold generate; intros H.
  - apply aimlapi_generate_ends in H. inversion H; subst; clear H;
      try (split_and!; done);
      match goal with
      | Hc : caught _ ?x = Ret _ |- _ =>
          unfold caught in Hc; destruct (exc_is_Exception x); by simplify_eq
      end.
  - apply pollinations_generate_ends in H. inversion H; subst; clear H;
      try (split_and!; done);
      match goal with
      | Hc : caught _ ?x = Ret _ |- _ =>
          unfold caught in Hc; destruct (exc_is_Exception x); by simplify_eq
      end.
Qed.

Lemma result_labels_witness :
  exists r w',
    generate (PollinationsVideoProvider Scenario.pollinations)
      (Scenario.with_get Scenario.happy (Ret (Response 500 []))) "a cat" no_kwargs
      Scenario.empty_world = (Ret r, w')
    /\ provider r = "pollinations"
    /\ content_type r = "video"
    /\ (success r = false -> metadata r = []).
Proof.
  eexists _, _. split; [run|].
  eapply (result_labels (PollinationsVideoProvider Scenario.pollinations)
            (Scenario.with_get Scenario.happy (Ret (Response 500 []))) "a cat" no_kwargs
            Scenario.empty_world).
  run.
Defined.

(** X7: the metadata of a successful result repeats the request: for
    AIMLAPI the model, prompt and aspect ratio are the ones of the
    submitted payload (the duration and the first frame are not
    recorded); for Pollinations the model and aspect ratio are the ones of
    the query, with the prompt and the requested duration as an integer
    (the query carries it as text). *)
Theorem success_metadata (E : env) (prompt : string) (kw : kwargs) (w w' : world)
    (r : GenerationResult) :
  (forall self,
     AIMLAPI.generate self E prompt kw w = (Ret r, w') -> success r = true ->
     List.map fst (metadata r) = ["model"; "prompt"; "aspect_ratio"]
     /\ forall k, In k ["model"; "prompt"; "aspect_ratio"] ->
                  dict_get (metadata r) k = dict_get (aimlapi_payload self prompt kw) k)
  /\ (forall self,
        Pollinations.generate self E prompt kw w = (Ret r, w') -> success r = true ->
        List.map fst (metadata r) = ["model"; "prompt"; "aspect_ratio"; "duration"]
        /\ dict_get (metadata r) "prompt" = PStr prompt
        /\ dict_get (metadata r) "duration" = PInt (default 5 (kw_duration_seconds kw))
        /\ forall duration k, In k ["model"; "aspect_ratio"] ->
                     dict_get (metadata r) k
                     = dict_get (pollinations_params self kw duration) k).
Proof.
  split; intros self H Hs.
  - apply aimlapi_generate_ends in H. inversion H; subst; clear H;
      try not_caught; try discriminate Hs.
    split; [reflexivity|]. intros k Hk. simpl in Hk.
    unfold aimlapi_payload, AIMLAPI.build_payload.
    destruct (kw_first_frame_url kw) as [f|]; [destruct (truthy_str (Some f))|];
      destruct Hk as [<-|[<-|[<-|[]]]]; reflexivity.
  - apply pollinations_generate_ends in H. inversion H; subst; clear H;
      try not_caught; try discriminate Hs.
    split_and!; try reflexivity. intros duration k Hk. simpl in Hk.
    unfold pollinations_params, Pollinations.build_params.
    destruct (truthy_str _); destruct Hk as [<-|[<-|[]]]; reflexivity.
Qed.

Lemma success_metadata_witness :
  exists r w',
    AIMLAPI.generate Scenario.aimlapi Scenario.happy "a cat" no_kwargs Scenario.empty_world
    = (Ret r, w')
    /\ success r = true
    /\ List.map fst (metadata r) = ["model"; "prompt"; "aspect_ratio"]
    /\ forall k, In k ["model"; "prompt"; "aspect_ratio"] ->
                 dict_get (metadata r) k
                 = dict_get (aimlapi_payload Scenario.aimlapi "a cat" no_kwargs) k.
Proof.
  eexists _, _. split; [reflexivity|]. split; [reflexivity|].
  exact (proj1 (success_metadata Scenario.happy "a cat" no_kwargs Scenario.empty_world _ _)
           Scenario.aimlapi eq_refl eq_refl).
Defined.

(** ** What is sent *)

(** X8: the payload AIMLAPI submits.  Its model is the fast model exactly
    when [use_fast_model] is true and the settings have one, and the
    default model otherwise; the prompt is passed as it is; the aspect
    ratio is "16:9" unless given; and ["image_url"] is present exactly
    when [first_frame_url] is a non-empty string, with that value. *)
Theorem submitted_payload (self : AIMLAPI.provider_state) (E : env) (prompt : string)
    (kw : kwargs) (w : world) :
  exists payload rest,
    requests_since w (AIMLAPI.generate self E prompt kw w).2
    = SubmitGeneration "/v2/generate/video" payload :: rest
    /\ lookup_key "model" payload = Some (PStr (requested_model self kw))
    /\ lookup_key "prompt" payload = Some (PStr prompt)
    /\ lookup_key "aspect_ratio" payload
       = Some (PStr (match kw_aspect_ratio kw with Some a => a | None => "16:9" end))
    /\ lookup_key "image_url" payload
       = match kw_first_frame_url kw with
         | Some f => if String.eqb f "" then None else Some (PStr f)
         | None => None
         end.
Proof.
  destruct (aimlapi_first_request self E prompt kw w) as [rest Hr].
  exists (aimlapi_payload self prompt kw), rest. split; [exact Hr|].
  unfold aimlapi_payload, AIMLAPI.build_payload, requested_model, AIMLAPI.select_model,
    truthy_str.
  destruct (kw_first_frame_url kw) as [f|]; [destruct (String.eqb f "")|];
    destruct (kw_use_fast_model kw) as [[|]|],
             (AIMLAPI.video_fast_model (AIMLAPI.self_settings self));
    destruct (kw_aspect_ratio kw); simpl; split_and!; reflexivity.
Qed.

(** X9: [PollinationsVideoProvider.generate] never reads [first_frame_url]
    and [use_fast_model]: a call behaves the same with and without them. *)
Theorem pollinations_ignores_frame_and_speed (self : Pollinations.provider_state)
    (E : env) (prompt : string) (kw : kwargs) (w : world) :
  Pollinations.generate self E prompt kw w
  = Pollinations.generate self E prompt (without_frame_and_speed kw) w.
Proof. reflexivity. Qed.

(** X10: the query Pollinations sends, once the prompt is quoted and the
    duration printed, goes to [<base_url>/image/<quoted prompt>] and has
    the model of the settings, the aspect ratio ("16:9" unless given),
    the printed duration, and ["nologo"] exactly when the request also
    carries an [Authorization] header, that is, when an API key is set.
    When quoting or printing raises, nothing is sent. *)
Theorem pollinations_query (self : Pollinations.provider_state) (E : env)
    (prompt : string) (kw : kwargs) (w : world) :
  (forall q d,
     urllib_quote E prompt = Ret q ->
     duration_text E kw = Ret d ->
     exists params hdrs,
       requests_since w (Pollinations.generate self E prompt kw w).2
       = [HttpGet (Pollinations.base_url (Pollinations.self_settings self)
                   +:+ "/image/" +:+ q) params hdrs]
       /\ lookup_key "model" params
          = Some (PStr (Pollinations.video_model (Pollinations.self_settings self)))
       /\ lookup_key "aspect_ratio" params
          = Some (PStr (match kw_aspect_ratio kw with Some a => a | None => "16:9" end))
       /\ lookup_key "duration" params = Some (PStr d)
       /\ lookup_key "nologo" params
          = (if bool_decide (is_Some (hdrs !! "Authorization"))
             then Some (PStr "true") else None)
       /\ List.map fst params
          = ["model"; "aspect_ratio"; "duration"]
            ++ (if bool_decide (is_Some (hdrs !! "Authorization")) then ["nologo"] else []))
  /\ (forall e,
        raised_before_try (PollinationsVideoProvider self) E prompt kw e ->
        requests_since w (Pollinations.generate self E prompt kw w).2 = []).
Proof.
  split.
  - intros q d Hq Hd.
    exists (pollinations_params self kw d), (Pollinations.headers self).
    split; [by apply (pollinations_only_request self E prompt kw w q d)|].
    rewrite headers_authorization.
    unfold pollinations_params, Pollinations.build_params, truthy_str.
    destruct (Pollinations.api_key (Pollinations.self_settings self)) as [k|];
      [destruct (String.eqb k "")|]; destruct (kw_aspect_ratio kw); simpl;
      split_and!; reflexivity.
  - intros e [Hq|[[q Hq] Hd]].
    + rewrite (pollinations_quote_raises self E prompt kw w e Hq). apply drop_all.
    + rewrite (pollinations_str_raises self E prompt kw w q e Hq Hd). apply drop_all.
Qed.

Lemma pollinations_query_witness :
  urllib_quote Scenario.happy "a cat" = Ret "a cat"
  /\ duration_text Scenario.happy no_kwargs = Ret "5"
  /\ exists params hdrs,
       requests_since Scenario.empty_world
         (Pollinations.generate Scenario.pollinations Scenario.happy "a cat" no_kwargs
            Scenario.empty_world).2
       = [HttpGet "https://gen.pollinations.ai/image/a cat" params hdrs]
       /\ lookup_key "model" params = Some (PStr "wan")
       /\ lookup_key "aspect_ratio" params = Some (PStr "16:9")
       /\ lookup_key "duration" params = Some (PStr "5")
       /\ lookup_key "nologo" params
          = (if bool_decide (is_Some (hdrs !! "Authorization"))
             then Some (PStr "true") else None)
       /\ List.map fst params
          = ["model"; "aspect_ratio"; "duration"]
            ++ (if bool_decide (is_Some (hdrs !! "Authorization")) then ["nologo"] else []).
Proof.
  split; [reflexivity|]. split; [reflexivity|].
  exact (proj1 (pollinations_query Scenario.pollinations Scenario.happy "a cat" no_kwargs
                  Scenario.empty_world) "a cat" "5" eq_refl eq_refl).
Defined.

(** ** HTTP errors of the Pollinations request *)

(** X11: a 401 answer makes the call fail with the text of
    [AuthenticationError("pollinations")], without consulting
    [raise_for_status]; any other answer that [raise_for_status] refuses
    with an ordinary exception makes it fail with that exception's text.
    In both cases the body of the answer is not written anywhere.  (The
    request is the one built from the quoted prompt and the printed
    duration.) *)
Theorem pollinations_http_errors (self : Pollinations.provider_state) (E : env)
    (prompt : string) (kw : kwargs) (w : world) (resp : response) (q d : string) :
  urllib_quote E prompt = Ret q ->
  duration_text E kw = Ret d ->
  httpx_get E (Pollinations.base_endpoint self q) (pollinations_params self kw d)
    (Pollinations.headers self) = Ret resp ->
  let failed msg :=
    mkGenerationResult false "pollinations" "video" None None None (Some msg) [] in
  let after := sent w [HttpGet (Pollinations.base_endpoint self q)
                         (pollinations_params self kw d) (Pollinations.headers self)] in
  (status_code resp = 401 ->
     Pollinations.generate self E prompt kw w
     = (Ret (failed (authentication_error_str E "pollinations")), after))
  /\ (forall e, status_code resp <> 401 ->
        httpx_raise_for_status E resp = Raise e -> exc_is_Exception e = true ->
        Pollinations.generate self E prompt kw w = (Ret (failed (exc_str e)), after)).
Proof.
  intros Hq Hd Hget failed after. subst failed after.
  split; [intros H401 | intros e Hne Hst He];
    destruct (Pollinations.generate self E prompt kw w) as [o w'] eqn:H;
    apply pollinations_generate_ends in H; inversion H; subst; clear H;
    repeat match goal with x := _ |- _ => subst x end;
    rewrite ?Hq, ?Hd in *; simplify_eq;
    rewrite ?Hget in *; simplify_eq; try congruence.
  - reflexivity.
  - match goal with
    | |- (caught _ ?x, _) = _ => assert (x = e) as -> by congruence
    end.
    unfold caught. by rewrite He.
Qed.

Lemma pollinations_http_errors_witness :
  let E := Scenario.with_get Scenario.happy (Ret (Response 401 [])) in
  urllib_quote E "a cat" = Ret "a cat"
  /\ duration_text E no_kwargs = Ret "5"
  /\ httpx_get E (Pollinations.base_endpoint Scenario.pollinations "a cat")
       (pollinations_params Scenario.pollinations no_kwargs "5")
       (Pollinations.headers Scenario.pollinations) = Ret (Response 401 [])
  /\ status_code (Response 401 []) = 401
  /\ exists w',
       Pollinations.generate Scenario.pollinations E "a cat" no_kwargs Scenario.empty_world
       = (Ret (mkGenerationResult false "pollinations" "video" None None None
                 (Some "Authentication failed for pollinations") []), w')
       /\ fs w' = fs Scenario.empty_world.
Proof.
  split; [reflexivity|]. split; [reflexivity|]. split; [reflexivity|].
  split; [reflexivity|]. eexists. split.
  - exact (proj1 (pollinations_http_errors Scenario.pollinations
                    (Scenario.with_get Scenario.happy (Ret (Response 401 [])))
                    "a cat" no_kwargs Scenario.empty_world (Response 401 []) "a cat" "5"
                    eq_refl eq_refl eq_refl)
             eq_refl).
  - reflexivity.
Defined.
